(** * Datos.py: the sensor dashboard, its loader and its presenter

    A shallow embedding of [src/Datos.py].  The script fetches the rows of a
    spreadsheet ([load_data], lines 28-60), turns them into a pandas frame
    with a resolved ['FechaHora'] column, and renders either the dashboard
    (lines 65-147) or the troubleshooting view (lines 149-164).

    What the script takes from outside is taken as data here:
    - the spreadsheet backend and the clock are a record [Remote];
    - the behaviours of pandas that the script does not fix (the date
      parser behind [pd.to_datetime], the grouping of the additions
      behind [Series.mean], the wording of its [TypeError]) are a record
      [Pandas];
    - the user's widget input is a record [User].

    Numbers are IEEE binary64 ([float]), as in Python; instants are counts
    of nanoseconds ([Z]), as in pandas.  A frame holds the cells as they
    were fetched: the dtype of a column is computed from them where the
    script asks for it, and an integer is converted to binary64 where it
    is added or formatted.  What pandas itself holds for a column, where
    it differs (an integer of a [float64] column), is [stored] below.

    The library is pandas 2, where the frequency ['10S'] of line 53 is
    ten seconds.  [Series_mean] follows pandas for the columns whose dtype
    is [int64], [uint64] or [float64] and for the columns that hold a
    text; the properties of the mean are stated for those.  [st.dataframe]
    is taken to accept the frame it is given.

    [load_data] is modelled on a cache miss: [st.cache_data] only decides
    how often it runs. *)

From Stdlib Require Import ZArith List String Ascii Bool Floats Lia DecimalString Permutation.
Import ListNotations.

Set Warnings "-inexact-float".

Open Scope string_scope.
Open Scope Z_scope.

(* ================================================================== *)
(** ** Exceptions and results *)

(** A Python exception: its class name and [str(e)]. *)
Inductive exn : Type :=
| Exception (kind : string) (message : string).

Definition str_exn (e : exn) : string :=
  match e with Exception _ m => m end.

(** The outcome of an expression that may raise. *)
Inductive result (A : Type) : Type :=
| Ok (a : A)
| Raise (e : exn).
Arguments Ok {A} a.
Arguments Raise {A} e.

Definition bind {A B : Type} (r : result A) (k : A -> result B) : result B :=
  match r with
  | Ok a => k a
  | Raise e => Raise e
  end.

Notation "x <- r ;; k" := (bind r (fun x => k))
  (at level 61, r at next level, right associativity).

Fixpoint mapM {A B : Type} (f : A -> result B) (l : list A) : result (list B) :=
  match l with
  | [] => Ok []
  | a :: l' => b <- f a ;; bs <- mapM f l' ;; Ok (b :: bs)
  end.

(* ================================================================== *)
(** ** Cells *)

(** What [get_all_records] puts in a record: gspread turns a cell that
    reads as a number into an [int] or a [float] and leaves every other
    cell, the blank one included (['']), a [str].  [CFloat nan] is also
    what pandas stores where a record lacks a key. *)
Inductive cell : Type :=
| CInt (n : Z)
| CFloat (x : float)
| CStr (s : string).

Definition is_str (c : cell) : bool :=
  match c with CStr _ => true | _ => false end.

Definition is_number (c : cell) : bool := negb (is_str c).

(** [float(n)] for a Python integer: the nearest binary64, ties to even;
    [infinity] stands for the integers Python refuses to convert. *)
Definition float_of_Z (n : Z) : float :=
  SF2Prim (binary_normalize 53 1024 n 0 false).

(* ================================================================== *)
(** ** Text *)

Definition str_Z (n : Z) : string :=
  if n <? 0
  then "-" ++ NilZero.string_of_uint (N.to_uint (Z.to_N (- n)))
  else NilZero.string_of_uint (N.to_uint (Z.to_N n)).

Definition str_nat (n : nat) : string := str_Z (Z.of_nat n).

(** [s.zfill(width)] for a string of digits. *)
Definition zfill (width : nat) (s : string) : string :=
  String.concat "" (repeat "0" (width - String.length s)%nat) ++ s.

(** Rounding of the non-negative rational [num / den] to the nearest
    integer, ties to the even one. *)
Definition round_half_even (num den : Z) : Z :=
  let q := num / den in
  let r := num mod den in
  match 2 * r ?= den with
  | Lt => q
  | Gt => q + 1
  | Eq => if Z.even q then q else q + 1
  end.

(** The digits of [|m * 2^e|] with [d] decimals: Python prints the exact
    binary value, correctly rounded. *)
Definition fixed_digits (d : nat) (m e : Z) : string :=
  let scale := 10 ^ Z.of_nat d in
  let n := if 0 <=? e
           then m * 2 ^ e * scale
           else round_half_even (m * scale) (2 ^ (- e)) in
  match d with
  | O => str_Z n
  | _ => str_Z (n / scale) ++ "." ++ zfill d (str_Z (n mod scale))
  end.

(** [format(x, '.<d>f')] for a float. *)
Definition format_f (d : nat) (x : float) : string :=
  match Prim2SF x with
  | S754_nan => "nan"
  | S754_infinity false => "inf"
  | S754_infinity true => "-inf"
  | S754_zero s => (if s then "-" else "") ++ fixed_digits d 0 0
  | S754_finite s m e => (if s then "-" else "") ++ fixed_digits d (Zpos m) e
  end.

(** [format(c, '.<d>f')] for a cell: an integer is converted with
    [float()] first, a string has no ['f'] format. *)
Definition format_cell (d : nat) (c : cell) : result string :=
  match c with
  | CFloat x => Ok (format_f d x)
  | CInt n =>
      if is_infinity (float_of_Z n)
      then Raise (Exception "OverflowError" "int too large to convert to float")
      else Ok (format_f d (float_of_Z n))
  | CStr _ =>
      Raise (Exception "ValueError" "Unknown format code 'f' for object of type 'str'")
  end.

(* ================================================================== *)
(** ** Frames *)

(** A record of [get_all_records]: a Python [dict] from column name to
    cell, in insertion order. *)
Definition record : Type := list (string * cell).

Fixpoint dict_get {A : Type} (k : string) (d : list (string * A)) : option A :=
  match d with
  | [] => None
  | (k', v) :: d' => if String.eqb k k' then Some v else dict_get k d'
  end.

(** A column of a frame: the cells as fetched, or the instants that
    [pd.to_datetime] and [pd.date_range] produce ([None] is [NaT]). *)
Inductive column : Type :=
| Cells (cs : list cell)
| Datetimes (ts : list (option Z)).

Definition column_len (c : column) : nat :=
  match c with
  | Cells cs => List.length cs
  | Datetimes ts => List.length ts
  end.

(** [pd.DataFrame]: the length of its index and its named columns, in
    column order. *)
Record DataFrame : Type := mkDataFrame {
  index_len : nat;
  data : list (string * column)
}.

(** [pd.DataFrame()] *)
Definition DataFrame_empty : DataFrame := mkDataFrame 0 [].

(** [df.columns] *)
Definition columns (df : DataFrame) : list string := map fst (data df).

(** [name in df.columns] *)
Definition in_columns (name : string) (df : DataFrame) : bool :=
  existsb (String.eqb name) (columns df).

(** [len(df)] *)
Definition len (df : DataFrame) : nat := index_len df.

(** [df.empty]: one of the two axes has length zero. *)
Definition empty (df : DataFrame) : bool :=
  (index_len df =? 0)%nat || (List.length (data df) =? 0)%nat.

(** [df[name]] *)
Definition getitem (df : DataFrame) (name : string) : result column :=
  match dict_get name (data df) with
  | Some c => Ok c
  | None => Raise (Exception "KeyError" ("'" ++ name ++ "'"))
  end.

(** The keys of a list of records, each once, in order of first
    appearance: the columns of [pd.DataFrame(records)]. *)
Fixpoint add_keys (seen : list string) (ks : list string) : list string :=
  match ks with
  | [] => seen
  | k :: ks' =>
      if existsb (String.eqb k) seen
      then add_keys seen ks'
      else add_keys (seen ++ [k]) ks'
  end.

Definition keys_of (records : list record) : list string :=
  fold_left (fun seen r => add_keys seen (map fst r)) records [].

(** The cell of a record under a key, [nan] where the record lacks it. *)
Definition cell_of (k : string) (r : record) : cell :=
  match dict_get k r with
  | Some c => c
  | None => CFloat nan
  end.

(** [pd.DataFrame(records)] (line 41): one row per record, in order. *)
Definition DataFrame_of_records (records : list record) : DataFrame :=
  mkDataFrame (List.length records)
    (map (fun k => (k, Cells (map (cell_of k) records))) (keys_of records)).

(** Replacing the column [name] where it stands, or appending it. *)
Fixpoint upsert (name : string) (c : column) (d : list (string * column))
  : list (string * column) :=
  match d with
  | [] => [(name, c)]
  | (k, c') :: d' =>
      if String.eqb name k then (name, c) :: d' else (k, c') :: upsert name c d'
  end.

(** A column of [n] missing values, of the kind of [c]. *)
Definition reindexed (n : nat) (c : column) : column :=
  match c with
  | Cells _ => Cells (repeat (CFloat nan) n)
  | Datetimes _ => Datetimes (repeat None n)
  end.

(** [df[name] = c] for a list-like [c].  The values must be as many as
    the index is long; a frame whose index is empty takes the index of a
    non-empty [c] and fills its other columns with missing values. *)
Definition setitem (df : DataFrame) (name : string) (c : column) : result DataFrame :=
  if (column_len c =? index_len df)%nat
  then Ok (mkDataFrame (index_len df) (upsert name c (data df)))
  else if (index_len df =? 0)%nat
  then Ok (mkDataFrame (column_len c)
             (upsert name c
                (map (fun kc => (fst kc, reindexed (column_len c) (snd kc))) (data df))))
  else Raise (Exception "ValueError"
                ("Length of values (" ++ str_nat (column_len c)
                 ++ ") does not match length of index ("
                 ++ str_nat (index_len df) ++ ")")).

(** [df.head(n)] and [df.tail(n)] *)
Definition slice_column (f : forall A : Type, list A -> list A) (c : column) : column :=
  match c with
  | Cells cs => Cells (f cell cs)
  | Datetimes ts => Datetimes (f (option Z) ts)
  end.

Definition lastn {A : Type} (n : nat) (l : list A) : list A :=
  skipn (List.length l - n) l.

Definition head (n : nat) (df : DataFrame) : DataFrame :=
  mkDataFrame (Nat.min n (index_len df))
    (map (fun kc => (fst kc, slice_column (fun A => @firstn A n) (snd kc))) (data df)).

Definition tail (n : nat) (df : DataFrame) : DataFrame :=
  mkDataFrame (Nat.min n (index_len df))
    (map (fun kc => (fst kc, slice_column (fun A => @lastn A n) (snd kc))) (data df)).

(** The dtype pandas gives a column. *)
Inductive dtype : Type := int64 | uint64 | float64 | object | datetime64.

Definition dtype_eqb (a b : dtype) : bool :=
  match a, b with
  | int64, int64 | uint64, uint64 | float64, float64 | object, object
  | datetime64, datetime64 => true
  | _, _ => false
  end.

Definition is_float (c : cell) : bool :=
  match c with CFloat _ => true | _ => false end.

(** An integer beyond 64 bits, signed or unsigned. *)
Definition beyond_64_bits (c : cell) : bool :=
  match c with
  | CInt n => (n <? - 2 ^ 63) || (2 ^ 64 <=? n)
  | _ => false
  end.

(** An integer above the signed 64-bit range. *)
Definition above_int64 (c : cell) : bool :=
  match c with
  | CInt n => 2 ^ 63 <=? n
  | _ => false
  end.

Definition negative_int (c : cell) : bool :=
  match c with
  | CInt n => n <? 0
  | _ => false
  end.

(** The dtype that pandas infers for a column of a frame built from
    records.  A text makes the column [object]; so does an integer beyond
    64 bits, and so does a negative integer together with one above the
    signed range.  Otherwise a float (a missing value is one) makes it
    [float64], and integers alone are [int64], or [uint64] when one of
    them is above the signed range. *)
Definition dtype_of (c : column) : dtype :=
  match c with
  | Datetimes _ => datetime64
  | Cells [] => object
  | Cells cs =>
      if existsb is_str cs then object
      else if existsb beyond_64_bits cs
              || (existsb above_int64 cs && existsb negative_int cs) then object
      else if existsb is_float cs then float64
      else if existsb above_int64 cs then uint64
      else int64
  end.

(* ================================================================== *)
(** ** The pandas operations of the script *)

(** The behaviours of pandas that the script leaves to the library and
    that this development does not fix:
    - [parse_datetime col c]: the instant [pd.to_datetime] reads in the
      cell [c] of the column [col] (the column is given because pandas
      infers one layout for a whole column), or the exception it raises;
    - [add_reduce xs]: the binary64 sum of [xs], in whatever grouping
      numpy adds them;
    - [mean_instants ts]: the mean of a non-empty list of instants;
    - [mean_type_error cs]: the text of the [TypeError] that the mean of
      a column holding a string raises, which names the first two values
      that could not be added. *)
Record Pandas : Type := mkPandas {
  parse_datetime : list cell -> cell -> result Z;
  add_reduce : list float -> float;
  mean_instants : list Z -> Z;
  mean_type_error : list cell -> string
}.

(** The smallest 64-bit integer, which pandas reads as [NaT]. *)
Definition iNaT : Z := - 2 ^ 63.

(** The strings that pandas reads as a missing instant. *)
Definition nat_strings : list string :=
  ["NaT"; "nat"; "NAT"; "nan"; "NaN"; "NAN"].

(** The cells that [pd.to_datetime] turns into [NaT] without parsing:
    the blank cell, the strings above, [nan], and [iNaT]. *)
Definition is_null (c : cell) : bool :=
  match c with
  | CStr s => (String.length s =? 0)%nat || existsb (String.eqb s) nat_strings
  | CFloat x => is_nan x || PrimFloat.eqb x (float_of_Z iNaT)
  | CInt n => n =? iNaT
  end.

Definition to_datetime_cell (P : Pandas) (col : list cell) (c : cell)
  : result (option Z) :=
  if is_null c then Ok None
  else t <- parse_datetime P col c ;; Ok (Some t).

(** [pd.to_datetime(series)], with its default [errors='raise']. *)
Definition to_datetime (P : Pandas) (c : column) : result column :=
  match c with
  | Cells cs => ts <- mapM (to_datetime_cell P cs) cs ;; Ok (Datetimes ts)
  | Datetimes ts => Ok (Datetimes ts)
  end.

(** Durations, in nanoseconds. *)
Definition seconds (n : Z) : Z := n * 1000000000.
Definition timedelta_days (n : Z) : Z := seconds (n * 86400).

(** [pd.date_range(start=start, periods=periods, freq=freq)] *)
Definition date_range (start : Z) (periods : nat) (freq : Z) : list Z :=
  map (fun i => start + Z.of_nat i * freq) (seq 0 periods).

(** A value read from a frame: a cell, or an instant ([None] is [NaT]). *)
Inductive scalar : Type :=
| SCell (c : cell)
| SInstant (t : option Z).

(** [series.iloc[i]]: a negative [i] counts from the end. *)
Definition iloc (c : column) (i : Z) : result scalar :=
  let n := Z.of_nat (column_len c) in
  let j := if i <? 0 then i + n else i in
  let out := Raise (Exception "IndexError" "single positional indexer is out-of-bounds") in
  if (0 <=? j) && (j <? n)
  then match c with
       | Cells cs =>
           match nth_error cs (Z.to_nat j) with Some x => Ok (SCell x) | None => out end
       | Datetimes ts =>
           match nth_error ts (Z.to_nat j) with Some t => Ok (SInstant t) | None => out end
       end
  else out.

Definition to_float (c : cell) : float :=
  match c with
  | CInt n => float_of_Z n
  | CFloat x => x
  | CStr _ => nan
  end.

(** The values of a column that are not missing. *)
Definition present (xs : list float) : list float :=
  filter (fun x => negb (is_nan x)) xs.

Fixpoint somes {A : Type} (l : list (option A)) : list A :=
  match l with
  | [] => []
  | Some a :: l' => a :: somes l'
  | None :: l' => somes l'
  end.

(** pandas' mean of numbers: the missing ones count as zero in the sum
    and are left out of the count; no value at all gives [nan]. *)
Definition nanmean (P : Pandas) (xs : list float) : float :=
  let the_sum := add_reduce P (map (fun x => if is_nan x then 0%float else x) xs) in
  match List.length (present xs) with
  | O => nan
  | count => (the_sum / float_of_Z (Z.of_nat count))%float
  end.

(** [series.mean()].  A column that holds a string has dtype [object] and
    pandas adds its values as Python objects, which raises [TypeError]
    (a column of strings only, which Python concatenates, raises from
    pandas 2 on).  Integers are converted to binary64 before they are
    added, as pandas does for an [int64] or a [float64] column. *)
Definition Series_mean (P : Pandas) (c : column) : result scalar :=
  match c with
  | Cells cs =>
      if existsb is_str cs
      then Raise (Exception "TypeError" (mean_type_error P cs))
      else Ok (SCell (CFloat (nanmean P (map to_float cs))))
  | Datetimes ts =>
      match somes ts with
      | [] => Ok (SInstant None)
      | t :: ts' => Ok (SInstant (Some (mean_instants P (t :: ts'))))
      end
  end.

(** [format(v, '.<d>f')], the format of the f-strings of the metrics.  An
    instant passes the format to [strftime], which copies a format
    without directive; [NaT] has no [strftime]. *)
Definition format_scalar (d : nat) (v : scalar) : result string :=
  match v with
  | SCell c => format_cell d c
  | SInstant (Some _) => Ok ("." ++ str_nat d ++ "f")
  | SInstant None => Raise (Exception "ValueError" "NaTType does not support strftime")
  end.

(* ================================================================== *)
(** ** The loader (lines 18-60) *)

Definition SPREADSHEET_ID : string := "1k78q-NphTejY9YaNQF1Mr2wxa6jsjTidXyJUnPFss3o".

Definition SCOPES : list string :=
  ["https://www.googleapis.com/auth/spreadsheets";
   "https://www.googleapis.com/auth/drive"].

(** The spreadsheet backend and the clock: what each call of the loader
    to [google.oauth2], [gspread] and [datetime] answers.  [datetime_now]
    is [datetime.now()] in nanoseconds. *)
Record Remote : Type := mkRemote {
  Credentials : Type;
  Client : Type;
  Spreadsheet : Type;
  Worksheet : Type;
  from_service_account_file : string -> list string -> result Credentials;
  authorize : Credentials -> result Client;
  open_by_key : Client -> string -> result Spreadsheet;
  sheet1 : Spreadsheet -> result Worksheet;
  get_all_records : Worksheet -> result (list record);
  datetime_now : Z
}.

(** Lines 31-39: from the credential file to the records of the sheet. *)
Definition fetch (R : Remote) : result (list record) :=
  creds <- from_service_account_file R "credentials.json" SCOPES ;;
  client <- authorize R creds ;;
  spreadsheet <- open_by_key R client SPREADSHEET_ID ;;
  sheet <- sheet1 R spreadsheet ;;
  get_all_records R sheet.

(** Lines 41-56: the frame of the records and its ['FechaHora'] column. *)
Definition normalize (P : Pandas) (now : Z) (records : list record) : result DataFrame :=
  let df := DataFrame_of_records records in
  if in_columns "FechaHora" df then
    c <- getitem df "FechaHora" ;;
    t <- to_datetime P c ;;
    setitem df "FechaHora" t
  else if in_columns "Timestamp" df then
    c <- getitem df "Timestamp" ;;
    t <- to_datetime P c ;;
    setitem df "FechaHora" t
  else
    setitem df "FechaHora"
      (Datetimes (map Some (date_range (now - timedelta_days 1) (len df) (seconds 10)))).

(** The [try] block of [load_data]. *)
Definition load_data_try (P : Pandas) (R : Remote) : result DataFrame :=
  records <- fetch R ;;
  normalize P (datetime_now R) records.

(* ================================================================== *)
(** ** What the script renders *)

(** Where an element is rendered: the page, the sidebar, one of the four
    columns of the metrics, or an expander. *)
Inductive container : Type :=
| Main
| Sidebar
| Col (i : nat)
| Expander (label : string) (expanded : bool).

(** [go.Scatter(x=..., y=..., name=..., line=dict(color=...))] *)
Record Scatter : Type := mkScatter {
  x : column;
  y : column;
  name : string;
  line_color : string
}.

Record Layout : Type := mkLayout {
  layout_title : string;
  xaxis_title : string;
  yaxis_title : string;
  hovermode : string;
  height : Z
}.

Record Figure : Type := mkFigure {
  traces : list Scatter;
  layout : Layout
}.

(** The Streamlit calls of the script. *)
Inductive element : Type :=
| st_set_page_config (page_title page_icon page_layout : string)
| st_title (body : string)
| st_error (body : string)
| st_success (body : string)
| st_metric (label value : string)
| st_markdown (body : string)
| st_write (body : string)
| st_write_dtypes (dtypes : list (string * dtype))
| st_info (body : string)
| st_subheader (body : string)
| st_warning (body : string)
| st_multiselect (label : string) (options default : list string)
| st_plotly_chart (fig : Figure)
| st_dataframe (df : DataFrame)
| st_button (label : string)
| st_cache_data_clear.

Definition event : Type := container * element.

(** A stretch of the script: the events it renders, in order, and its
    value or the exception that stops it. *)
Definition ui (A : Type) : Type := list event * result A.

Definition ret {A : Type} (a : A) : ui A := ([], Ok a).

Definition emit (c : container) (e : element) : ui unit := ([(c, e)], Ok tt).

Definition lift {A : Type} (r : result A) : ui A := ([], r).

Definition ui_bind {A B : Type} (m : ui A) (k : A -> ui B) : ui B :=
  match m with
  | (evs, Ok a) => let (evs', r) := k a in ((evs ++ evs')%list, r)
  | (evs, Raise e) => (evs, Raise e)
  end.

Notation "x <~ m ;; k" := (ui_bind m (fun x => k))
  (at level 61, m at next level, right associativity).
Notation "m ;;; k" := (ui_bind m (fun _ => k))
  (at level 61, right associativity).

(** [try: m except Exception as e: handler e] *)
Definition try_except {A : Type} (m : ui A) (handler : exn -> ui A) : ui A :=
  match m with
  | (evs, Ok a) => (evs, Ok a)
  | (evs, Raise e) => let (evs', r) := handler e in ((evs ++ evs')%list, r)
  end.

Fixpoint for_each {A : Type} (l : list A) (body : A -> ui unit) : ui unit :=
  match l with
  | [] => ret tt
  | a :: l' => body a ;;; for_each l' body
  end.

Definition rendered {A : Type} (m : ui A) : list event := fst m.
Definition outcome {A : Type} (m : ui A) : result A := snd m.

(** [load_data] (lines 29-60), on a cache miss. *)
Definition load_data (P : Pandas) (R : Remote) : ui DataFrame :=
  try_except (lift (load_data_try P R))
    (fun e =>
       emit Main (st_error ("Error cargando datos: " ++ str_exn e)) ;;;
       ret DataFrame_empty).

(* ================================================================== *)
(** ** The presenter (lines 65-164) and the script *)

(** What the user does with the widgets: the selection the multiselect
    returns, and whether the button was pressed. *)
Record User : Type := mkUser {
  multiselect : string -> list string -> list string -> list string;
  button : string -> bool
}.

(** Lines 74-90: a metric of a sensor column, or "N/A" without it. *)
Definition voltage_metric (P : Pandas) (df : DataFrame) : ui unit :=
  if in_columns "Voltaje" df then
    v <~ lift (c <- getitem df "Voltaje" ;;
               m <- Series_mean P c ;;
               format_scalar 2 m) ;;
    emit (Col 2) (st_metric "⚡ Voltaje Promedio" (v ++ " V"))
  else
    emit (Col 2) (st_metric "⚡ Voltaje" "N/A").

Definition temperature_metric (df : DataFrame) : ui unit :=
  if in_columns "Temperatura" df then
    v <~ lift (c <- getitem df "Temperatura" ;;
               m <- iloc c (-1) ;;
               format_scalar 1 m) ;;
    emit (Col 3) (st_metric "🌡️ Temp. Actual" (v ++ " °C"))
  else
    emit (Col 3) (st_metric "🌡️ Temperatura" "N/A").

Definition humidity_metric (df : DataFrame) : ui unit :=
  if in_columns "Humedad" df then
    v <~ lift (c <- getitem df "Humedad" ;;
               m <- iloc c (-1) ;;
               format_scalar 1 m) ;;
    emit (Col 4) (st_metric "💧 Humedad Actual" (v ++ " %"))
  else
    emit (Col 4) (st_metric "💧 Humedad" "N/A").

(** Lines 68-90 *)
Definition metrics (P : Pandas) (df : DataFrame) : ui unit :=
  emit (Col 1) (st_metric "📊 Total Registros" (str_nat (len df))) ;;;
  voltage_metric P df ;;;
  temperature_metric df ;;;
  humidity_metric df.

Definition colors : list string :=
  ["#1f77b4"; "#ff7f0e"; "#2ca02c"; "#d62728"; "#9467bd"; "#8c564b"].

(** Line 103: the columns other than ['FechaHora'] whose dtype is
    [float64] or [int64]. *)
Fixpoint available_columns (df : DataFrame) (cols : list string) : result (list string) :=
  match cols with
  | [] => Ok []
  | col :: cols' =>
      if negb (String.eqb col "FechaHora") then
        c <- getitem df col ;;
        rest <- available_columns df cols' ;;
        if dtype_eqb (dtype_of c) float64 || dtype_eqb (dtype_of c) int64
        then Ok (col :: rest) else Ok rest
      else available_columns df cols'
  end.

(** Lines 117-123: one trace per selected column, the colours in turn. *)
Fixpoint add_traces (df : DataFrame) (i : nat) (selected_columns : list string)
  : result (list Scatter) :=
  match selected_columns with
  | [] => Ok []
  | col :: rest =>
      xs <- getitem df "FechaHora" ;;
      ys <- getitem df col ;;
      let t := mkScatter xs ys col (nth (i mod List.length colors) colors "") in
      ts <- add_traces df (S i) rest ;;
      Ok (t :: ts)
  end.

Definition chart_layout : Layout :=
  mkLayout "Evolución de Sensores en el Tiempo" "Fecha y Hora" "Valores" "x unified" 500.

(** Lines 98-135 *)
Definition chart (U : User) (df : DataFrame) : ui unit :=
  if in_columns "FechaHora" df then
    emit Main (st_subheader "📈 Evolución Temporal") ;;;
    available <~ lift (available_columns df (columns df)) ;;
    match available with
    | _ :: _ =>
        let label := "Selecciona variables para graficar:" in
        let default := if (2 <=? List.length available)%nat
                       then firstn 2 available else available in
        emit Main (st_multiselect label available default) ;;;
        match multiselect U label available default with
        | (_ :: _) as selected_columns =>
            ts <~ lift (add_traces df 0 selected_columns) ;;
            emit Main (st_plotly_chart (mkFigure ts chart_layout))
        | [] => ret tt
        end
    | [] => emit Main (st_warning "No hay columnas numéricas para graficar")
    end
  else ret tt.

(** Lines 137-147 *)
Definition tables (df : DataFrame) : ui unit :=
  let inspector := Expander "🔍 Ver estructura de datos" false in
  emit Main (st_subheader "📋 Datos Recientes") ;;;
  emit inspector (st_write "**Tipos de datos:**") ;;;
  emit inspector (st_write_dtypes (map (fun kc => (fst kc, dtype_of (snd kc))) (data df))) ;;;
  emit inspector (st_write "**Primeras filas:**") ;;;
  emit inspector (st_dataframe (head 5 df)) ;;;
  emit Main (st_dataframe (tail 10 df)).

(** Lines 66-147: the branch of a frame that is not empty. *)
Definition dashboard (P : Pandas) (U : User) (df : DataFrame) : ui unit :=
  emit Main (st_success ("✅ Datos cargados correctamente: "
                         ++ str_nat (len df) ++ " registros")) ;;;
  metrics P df ;;;
  emit Sidebar (st_markdown "### 🔍 Columnas disponibles:") ;;;
  (if negb (empty df)
   then for_each (columns df) (fun col => emit Sidebar (st_write ("- `" ++ col ++ "`")))
   else ret tt) ;;;
  chart U df ;;;
  tables df.

(** [pd.DataFrame(d)] for a dict of lists. *)
Definition DataFrame_of_dict (d : list (string * list cell)) : result DataFrame :=
  match d with
  | [] => Ok DataFrame_empty
  | (_, cs) :: _ =>
      if forallb (fun kc => (List.length (snd kc) =? List.length cs)%nat) d
      then Ok (mkDataFrame (List.length cs) (map (fun kc => (fst kc, Cells (snd kc))) d))
      else Raise (Exception "ValueError" "All arrays must be of the same length")
  end.

Definition ejemplo_data : list (string * list cell) :=
  [("FechaHora", [CStr "2024-01-01 10:00:00"; CStr "2024-01-01 10:00:10"]);
   ("Voltaje", [CFloat 3.3; CFloat 3.2]);
   ("CorrienteINA", [CFloat 150.5; CFloat 148.2]);
   ("Potencia", [CFloat 495.0; CFloat 480.0]);
   ("CorrienteACS", [CFloat 145.0; CFloat 143.5]);
   ("Temperatura", [CFloat 25.5; CFloat 25.6]);
   ("Humedad", [CFloat 60.0; CFloat 59.8])].

(** Lines 150-164: the branch of an empty frame. *)
Definition fallback : ui unit :=
  emit Main (st_error "❌ No se pudieron cargar los datos") ;;;
  example <~ lift (DataFrame_of_dict ejemplo_data) ;;
  emit (Expander "🔧 Solución de problemas" true) (st_dataframe example).

(** Lines 65-164 *)
Definition presenter (P : Pandas) (U : User) (df : DataFrame) : ui unit :=
  if negb (empty df) then dashboard P U df else fallback.

(** [st.rerun()] stops the run with an exception of Streamlit's own. *)
Definition st_rerun : ui unit := lift (Raise (Exception "RerunException" "")).

(** Lines 166-175 *)
Definition footer (U : User) (df : DataFrame) : ui unit :=
  emit Sidebar (st_markdown "---") ;;;
  emit Sidebar (st_info "Los datos se actualizan automáticamente cada 5 minutos") ;;;
  emit Sidebar (st_button "🔄 Actualizar Ahora") ;;;
  (if button U "🔄 Actualizar Ahora"
   then emit Main st_cache_data_clear ;;; st_rerun
   else ret tt) ;;;
  emit Sidebar (st_markdown "---") ;;;
  emit Sidebar (st_write ("📊 Datos cargados: " ++ str_nat (len df) ++ " registros")).

(** One run of the script. *)
Definition script (P : Pandas) (R : Remote) (U : User) : ui unit :=
  emit Main (st_set_page_config "Dashboard Sensores ESP32" "🔌" "wide") ;;;
  emit Main (st_title "🔌 Dashboard de Monitoreo - Proyecto Electrónica") ;;;
  df <~ load_data P R ;;
  presenter P U df ;;;
  footer U df.

(* ================================================================== *)
(** ** Instances, for running the model *)

(** Days from 1970-01-01 to a date of the proleptic Gregorian calendar. *)
Definition days_from_civil (y m d : Z) : Z :=
  let y' := if m <=? 2 then y - 1 else y in
  let era := y' / 400 in
  let yoe := y' - era * 400 in
  let mp := if 2 <? m then m - 3 else m + 9 in
  let doy := (153 * mp + 2) / 5 + d - 1 in
  let doe := yoe * 365 + yoe / 4 - yoe / 100 + doy in
  era * 146097 + doe - 719468.

Definition is_leap (y : Z) : bool :=
  ((y mod 4 =? 0) && negb (y mod 100 =? 0)) || (y mod 400 =? 0).

Definition days_in_month (y m : Z) : Z :=
  if m =? 2 then (if is_leap y then 29 else 28)
  else if (m =? 4) || (m =? 6) || (m =? 9) || (m =? 11) then 30
  else 31.

Definition digit (c : ascii) : option Z :=
  let n := Z.of_nat (nat_of_ascii c) in
  if (48 <=? n) && (n <=? 57) then Some (n - 48) else None.

Fixpoint number (acc : Z) (cs : list ascii) : option Z :=
  match cs with
  | [] => Some acc
  | c :: cs' =>
      match digit c with
      | Some d => number (10 * acc + d) cs'
      | None => None
      end
  end.

(** The instant of a text laid out as ['YYYY-MM-DD HH:MM:SS'], the layout
    of the example record of the script. *)
Definition parse_iso (s : string) : option Z :=
  match list_ascii_of_string s with
  | [y1; y2; y3; y4; "-"; m1; m2; "-"; d1; d2; " "; h1; h2; ":"; n1; n2; ":"; s1; s2]%char =>
      match number 0 [y1; y2; y3; y4], number 0 [m1; m2], number 0 [d1; d2],
            number 0 [h1; h2], number 0 [n1; n2], number 0 [s1; s2] with
      | Some y, Some m, Some d, Some h, Some n, Some sec =>
          if (1 <=? m) && (m <=? 12) && (1 <=? d) && (d <=? days_in_month y m)
             && (h <? 24) && (n <? 60) && (sec <? 60)
          then Some (seconds (days_from_civil y m d * 86400 + h * 3600 + n * 60 + sec))
          else None
      | _, _, _, _, _, _ => None
      end
  | _ => None
  end.

(** A pandas that reads that one layout (and an integer as a count of
    nanoseconds), adds from left to right, takes the mean of instants by
    integer division, and words its [TypeError] as Python does for a
    float followed by a string. *)
Definition pandas_iso : Pandas :=
  mkPandas
    (fun _ c =>
       match c with
       | CStr s =>
           match parse_iso s with
           | Some t => Ok t
           | None => Raise (Exception "ValueError" ("Unknown datetime string format, unable to parse: " ++ s))
           end
       | CInt n => Ok n
       | CFloat _ => Raise (Exception "ValueError" "mixed datetimes and floats")
       end)
    (fun xs => fold_left PrimFloat.add xs 0%float)
    (fun ts => fold_left Z.add ts 0 / Z.of_nat (List.length ts))
    (fun _ => "unsupported operand type(s) for +: 'float' and 'str'").

(** A backend that answers every call and serves the given records. *)
Definition remote_serving (records : list record) (now : Z) : Remote :=
  mkRemote unit unit unit unit
    (fun _ _ => Ok tt) (fun _ => Ok tt) (fun _ _ => Ok tt) (fun _ => Ok tt)
    (fun _ => Ok records) now.

(** A backend whose credential file cannot be read. *)
Definition remote_without_credentials (now : Z) : Remote :=
  mkRemote unit unit unit unit
    (fun _ _ => Raise (Exception "FileNotFoundError"
                         "[Errno 2] No such file or directory: 'credentials.json'"))
    (fun _ => Ok tt) (fun _ _ => Ok tt) (fun _ => Ok tt)
    (fun _ => Ok []) now.

(** A backend whose sheet cannot be opened. *)
Definition remote_unreachable (now : Z) : Remote :=
  mkRemote unit unit unit unit
    (fun _ _ => Ok tt) (fun _ => Ok tt)
    (fun _ _ => Raise (Exception "APIError" "503: The service is currently unavailable."))
    (fun _ => Ok tt) (fun _ => Ok []) now.

(** A user who keeps the default selection and leaves the button. *)
Definition user_idle : User :=
  mkUser (fun _ _ default => default) (fun _ => false).

(** 2024-01-02 10:00:00, in nanoseconds. *)
Definition fetch_time : Z := seconds 1704189600.

(** The records of the example of the script, as a sheet would serve them. *)
Definition records_ejemplo : list record :=
  [[("FechaHora", CStr "2024-01-01 10:00:00"); ("Voltaje", CFloat 3.3);
    ("Temperatura", CFloat 25.5); ("Humedad", CFloat 60.0)];
   [("FechaHora", CStr "2024-01-01 10:00:10"); ("Voltaje", CFloat 3.2);
    ("Temperatura", CFloat 25.6); ("Humedad", CFloat 59.8)]].

(** Rows whose second instant was left blank in the sheet. *)
Definition records_blank : list record :=
  [[("FechaHora", CStr "2024-01-01 10:00:00"); ("Voltaje", CFloat 3.3)];
   [("FechaHora", CStr ""); ("Voltaje", CFloat 3.2)]].

(** Rows without any column of instants. *)
Definition records_untimed : list record :=
  [[("Voltaje", CFloat 3.3); ("Temperatura", CFloat 25.5)];
   [("Voltaje", CFloat 3.2); ("Temperatura", CFloat 25.6)]].

(** Rows whose instants stand in a column named 'Timestamp'. *)
Definition records_timestamp : list record :=
  [[("Timestamp", CStr "2024-01-01 10:00:00"); ("Voltaje", CFloat 3.3)];
   [("Timestamp", CStr "2024-01-01 10:00:10"); ("Voltaje", CFloat 3.2)]].

(** Rows whose second voltage is not a number. *)
Definition records_text : list record :=
  [[("FechaHora", CStr "2024-01-01 10:00:00"); ("Voltaje", CFloat 3.3)];
   [("FechaHora", CStr "2024-01-01 10:00:10"); ("Voltaje", CStr "abc")]].

(** The frame that [load_data] returns for the example records. *)
Definition frame_ejemplo : DataFrame :=
  mkDataFrame 2
    [("FechaHora", Datetimes [Some (seconds 1704103200); Some (seconds 1704103210)]);
     ("Voltaje", Cells [CFloat 3.3; CFloat 3.2]);
     ("Temperatura", Cells [CFloat 25.5; CFloat 25.6]);
     ("Humedad", Cells [CFloat 60.0; CFloat 59.8])].

(* ================================================================== *)
(** ** Names read off the specification *)

(** Where the instants of a frame come from. *)
Inductive timestamp_origin : Type :=
| ParsedFrom (name : string)
| Synthesized.

(** The order of the specification: the column named for the combined
    date and time, then the column named "Timestamp", then synthesis. *)
Definition spec_timestamp_origin (cols : list string) : timestamp_origin :=
  if existsb (String.eqb "FechaHora") cols then ParsedFrom "FechaHora"
  else if existsb (String.eqb "Timestamp") cols then ParsedFrom "Timestamp"
  else Synthesized.

(** The frame of the records with [c] as its ['FechaHora'] column. *)
Definition with_FechaHora (records : list record) (c : column) : DataFrame :=
  mkDataFrame (List.length records)
    (upsert "FechaHora" c (data (DataFrame_of_records records))).

(** The instant of row [i], [None] where it is missing. *)
Definition resolved_timestamp (df : DataFrame) (i : nat) : option Z :=
  match dict_get "FechaHora" (data df) with
  | Some (Datetimes ts) =>
      match nth_error ts i with
      | Some (Some t) => Some t
      | _ => None
      end
  | _ => None
  end.

(** What [pd.to_datetime] makes of the cell [c] of the column [col]:
    [NaT] for a cell that reads as missing, else the instant parsed. *)
Definition parses_to (P : Pandas) (col : list cell) (c : cell) (t : option Z) : Prop :=
  if is_null c then t = None
  else exists z, parse_datetime P col c = Ok z /\ t = Some z.

(** [ts] holds, row by row, what [pd.to_datetime] makes of the cells that
    the records have under [name]. *)
Definition column_parsed (P : Pandas) (records : list record) (name : string)
           (ts : list (option Z)) : Prop :=
  List.length ts = List.length records
  /\ forall i r, nth_error records i = Some r ->
       exists t, nth_error ts i = Some t
                 /\ parses_to P (map (cell_of name) records) (cell_of name r) t.



(** [s] is a binary64 sum of [xs]: the values added in some order and in
    some grouping, as the pairwise summation of numpy adds them; no value
    at all gives zero. *)
Inductive float_sum : list float -> float -> Prop :=
| sum_none : float_sum [] 0%float
| sum_one (x : float) : float_sum [x] x
| sum_add (xs ys l : list float) (s t : float) :
    Permutation l (xs ++ ys) ->
    float_sum xs s ->
    float_sum ys t ->
    float_sum l (s + t)%float.

(** The additions of the library are sums. *)
Definition sums (P : Pandas) : Prop :=
  forall xs, float_sum xs (add_reduce P xs).

(** The mean as the specification names it: [m] is a sum of [xs] over
    their count. *)
Definition mean_of (xs : list float) (m : float) : Prop :=
  exists s, float_sum xs s
            /\ m = (s / float_of_Z (Z.of_nat (List.length xs)))%float.

(** The values with zero in the place of each missing one. *)
Definition missing_as_zero (xs : list float) : list float :=
  map (fun x => if is_nan x then 0%float else x) xs.

(** The dtypes of the columns of numbers. *)
Definition numeric (d : dtype) : bool :=
  match d with
  | int64 | uint64 | float64 => true
  | object | datetime64 => false
  end.

(** What pandas holds for a cell of a column of dtype [d]: in a [float64]
    column an integer is held as [float(n)]. *)
Definition stored_cell (d : dtype) (c : cell) : cell :=
  match d, c with
  | float64, CInt n => CFloat (float_of_Z n)
  | _, _ => c
  end.

(** The values of a column as pandas holds them ([series.tolist()]). *)
Definition stored (c : column) : column :=
  match c with
  | Cells cs => Cells (map (stored_cell (dtype_of c)) cs)
  | Datetimes ts => Datetimes ts
  end.

(** The ways [load_data] fails: the credential file, each call to the
    backend, and a sheet that does not read as a frame. *)
Inductive load_failure (P : Pandas) (R : Remote) (e : exn) : Prop :=
| credentials_failure :
    from_service_account_file R "credentials.json" SCOPES = Raise e ->
    load_failure P R e
| authorize_failure creds :
    from_service_account_file R "credentials.json" SCOPES = Ok creds ->
    authorize R creds = Raise e ->
    load_failure P R e
| open_failure creds client :
    from_service_account_file R "credentials.json" SCOPES = Ok creds ->
    authorize R creds = Ok client ->
    open_by_key R client SPREADSHEET_ID = Raise e ->
    load_failure P R e
| worksheet_failure creds client spreadsheet :
    from_service_account_file R "credentials.json" SCOPES = Ok creds ->
    authorize R creds = Ok client ->
    open_by_key R client SPREADSHEET_ID = Ok spreadsheet ->
    sheet1 R spreadsheet = Raise e ->
    load_failure P R e
| records_failure creds client spreadsheet sheet :
    from_service_account_file R "credentials.json" SCOPES = Ok creds ->
    authorize R creds = Ok client ->
    open_by_key R client SPREADSHEET_ID = Ok spreadsheet ->
    sheet1 R spreadsheet = Ok sheet ->
    get_all_records R sheet = Raise e ->
    load_failure P R e
| malformed_sheet records :
    fetch R = Ok records ->
    normalize P (datetime_now R) records = Raise e ->
    load_failure P R e.

(** The events of the troubleshooting view. *)
Definition in_fallback (ev : event) : bool :=
  match ev with
  | (_, st_error _) => true
  | (Expander label _, _) => String.eqb label "🔧 Solución de problemas"
  | _ => false
  end.

Definition is_chart (ev : event) : bool :=
  match ev with
  | (_, st_plotly_chart _) => true
  | _ => false
  end.

(** No event of [m] satisfies [f]. *)
Definition without (f : event -> bool) {C : Type} (m : ui C) : Prop :=
  existsb f (rendered m) = false.

(** A cell that is a number and is not missing. *)
Definition is_reading (c : cell) : bool :=
  is_number c && negb (is_nan (to_float c)).

(** The metrics read a cell that is text: one of the voltage column, or
    the last one of the temperature or of the humidity column. *)
Definition last_is_str (c : column) : bool :=
  match c with
  | Cells cs => match last cs (CInt 0) with CStr _ => negb (List.length cs =? 0)%nat | _ => false end
  | Datetimes _ => false
  end.

Definition has_str (c : column) : bool :=
  match c with
  | Cells cs => existsb is_str cs
  | Datetimes _ => false
  end.

Definition column_such (f : column -> bool) (df : DataFrame) (name : string) : bool :=
  match dict_get name (data df) with
  | Some c => f c
  | None => false
  end.

Definition metrics_read_text (df : DataFrame) : bool :=
  column_such has_str df "Voltaje"
  || column_such last_is_str df "Temperatura"
  || column_such last_is_str df "Humedad".

(* ================================================================== *)
(** ** The cache of [load_data] (lines 28, 63, 166-171) *)

(** [@st.cache_data(ttl=300)]: Streamlit keeps what the last call of
    [load_data] rendered and returned, with the time of that call, and
    serves it again while its age is below the ttl; on a hit the function
    is not run and the elements it had rendered are rendered again.
    [load_data] takes no argument, so there is one entry.  The clock is
    the monotonic clock of the cache, in nanoseconds; a run of the script
    is taken to happen at one instant of it. *)
Definition ttl : Z := seconds 300.

Definition cache_data : Type := option (Z * ui DataFrame).

(** Line 63, [df = load_data()], through the cache. *)
Definition cached_load_data (P : Pandas) (R : Remote) (clock : Z) (c : cache_data)
  : ui DataFrame * cache_data :=
  match c with
  | Some (stored, v) =>
      if clock <? stored + ttl
      then (v, c)
      else (load_data P R, Some (clock, load_data P R))
  | None => (load_data P R, Some (clock, load_data P R))
  end.

(** The script around a call of [load_data] that answered [loaded]. *)
Definition script_from (loaded : ui DataFrame) (P : Pandas) (U : User) : ui unit :=
  emit Main (st_set_page_config "Dashboard Sensores ESP32" "🔌" "wide") ;;;
  emit Main (st_title "🔌 Dashboard de Monitoreo - Proyecto Electrónica") ;;;
  df <~ loaded ;;
  presenter P U df ;;;
  footer U df.

Definition is_cache_clear (ev : event) : bool :=
  match ev with
  | (_, st_cache_data_clear) => true
  | _ => false
  end.

Definition is_button (ev : event) : bool :=
  match ev with
  | (_, st_button _) => true
  | _ => false
  end.

(** One run of the script against the cache: what it renders, and the
    cache it leaves ([st.cache_data.clear()], line 170, empties it). *)
Definition run (P : Pandas) (R : Remote) (U : User) (clock : Z) (c : cache_data)
  : ui unit * cache_data :=
  let (loaded, c') := cached_load_data P R clock c in
  let r := script_from loaded P U in
  (r, if existsb is_cache_clear (rendered r) then None else c').

(* ================================================================== *)
(** ** Names for the properties of the frames and of the views *)

(** Every column has as many values as the index is long. *)
Definition rectangular (df : DataFrame) : bool :=
  forallb (fun kc => (column_len (snd kc) =? index_len df)%nat) (data df).

(** The last cell of a column has no ['.1f'] format: it is a text, or an
    integer beyond the range of binary64. *)
Definition last_unformattable (c : column) : bool :=
  match c with
  | Cells cs =>
      match last cs (CInt 0) with
      | CStr _ => negb (List.length cs =? 0)%nat
      | CInt n => is_infinity (float_of_Z n)
      | CFloat _ => false
      end
  | Datetimes _ => false
  end.

(** A metric reads a cell that it cannot show. *)
Definition metrics_fail (df : DataFrame) : bool :=
  column_such has_str df "Voltaje"
  || column_such last_unformattable df "Temperatura"
  || column_such last_unformattable df "Humedad".

(** The column [col] of [df] can be charted: it is not 'FechaHora' and
    its dtype is [float64] or [int64]. *)
Definition chartable (df : DataFrame) (col : string) : bool :=
  negb (String.eqb col "FechaHora")
  && match dict_get col (data df) with
     | Some c => dtype_eqb (dtype_of c) float64 || dtype_eqb (dtype_of c) int64
     | None => false
     end.

(** The elements that the dashboard renders. *)
Definition dashboard_element (e : element) : bool :=
  match e with
  | st_success _ | st_metric _ _ | st_markdown _ | st_write _ | st_write_dtypes _
  | st_subheader _ | st_warning _ | st_multiselect _ _ _ | st_plotly_chart _
  | st_dataframe _ => true
  | _ => false
  end.

Definition not_of_dashboard (ev : event) : bool := negb (dashboard_element (snd ev)).

Definition in_sidebar (ev : event) : bool :=
  match ev with
  | (Sidebar, _) => true
  | _ => false
  end.

(** The user only selects among the options offered (the default
    selection being among them). *)
Definition selects_among_options (U : User) : Prop :=
  forall label options default,
    incl default options ->
    incl (multiselect U label options default) options.

(** A user who clears the selection and leaves the button. *)
Definition user_none : User :=
  mkUser (fun _ _ _ => []) (fun _ => false).

(** A user who keeps the default selection and presses the button. *)
Definition user_refresh : User :=
  mkUser (fun _ _ default => default) (fun _ => true).

(** A user who selects every column offered and leaves the button. *)
Definition user_all : User :=
  mkUser (fun _ options _ => options) (fun _ => false).

(** Seven numeric columns over two rows, to go round the palette. *)
Definition records_wide : list record :=
  [[("FechaHora", CStr "2024-01-01 10:00:00"); ("A", CInt 1); ("B", CInt 2);
    ("C", CInt 3); ("D", CInt 4); ("E", CInt 5); ("F", CInt 6); ("G", CInt 7)];
   [("FechaHora", CStr "2024-01-01 10:00:10"); ("A", CInt 2); ("B", CInt 3);
    ("C", CInt 4); ("D", CInt 5); ("E", CInt 6); ("F", CInt 7); ("G", CInt 8)]].

(** The frame that [load_data] returns for them. *)
Definition frame_wide : DataFrame :=
  with_FechaHora records_wide
    (Datetimes [Some (seconds 1704103200); Some (seconds 1704103210)]).

(** Rows that name no sensor of the metrics. *)
Definition records_current_only : list record :=
  [[("FechaHora", CStr "2024-01-01 10:00:00"); ("CorrienteINA", CFloat 150.5)];
   [("FechaHora", CStr "2024-01-01 10:00:10"); ("CorrienteINA", CFloat 148.2)]].

(** A cell that has a ['.1f'] format: a float, or an integer that
    converts to one. *)
Definition formattable (c : cell) : bool :=
  match c with
  | CFloat _ => true
  | CInt n => negb (is_infinity (float_of_Z n))
  | CStr _ => false
  end.

(** An integer cell is within the signed 64-bit range. *)
Definition fits_int64 (c : cell) : bool :=
  match c with
  | CInt n => (- 2 ^ 63 <=? n) && (n <? 2 ^ 63)
  | _ => true
  end.

(** The integers of the records are within the signed 64-bit range, as
    the readings of a sensor are. *)
Definition int64_records (records : list record) : bool :=
  forallb (fun r => forallb (fun kc => fits_int64 (snd kc)) r) records.


(** Rows whose second voltage was left blank in the sheet. *)
Definition records_blank_voltage : list record :=
  [[("FechaHora", CStr "2024-01-01 10:00:00"); ("Voltaje", CFloat 3.3)];
   [("FechaHora", CStr "2024-01-01 10:00:10"); ("Voltaje", CStr "")]].

(** Rows whose second voltage reads 'nan' in the sheet. *)
Definition records_nan_voltage : list record :=
  [[("FechaHora", CStr "2024-01-01 10:00:00"); ("Voltaje", CFloat 3.3)];
   [("FechaHora", CStr "2024-01-01 10:00:10"); ("Voltaje", CFloat nan)]].

(** Rows whose last temperature was left blank in the sheet. *)
Definition records_blank_temperature : list record :=
  [[("FechaHora", CStr "2024-01-01 10:00:00"); ("Temperatura", CFloat 25.5);
    ("Humedad", CFloat 60.0)];
   [("FechaHora", CStr "2024-01-01 10:00:10"); ("Temperatura", CStr "");
    ("Humedad", CFloat 59.8)]].


(* ================================================================== *)
(** ** Running the model *)

Example format_f_3_25 : format_f 2 3.25%float = "3.25".
Proof. vm_compute. reflexivity. Qed.

Example format_f_25_6 : format_f 1 25.6%float = "25.6".
Proof. vm_compute. reflexivity. Qed.

Example format_f_tie_even : format_f 2 0.125%float = "0.12".
Proof. vm_compute. reflexivity. Qed.

Example format_f_below_tie : format_f 2 2.675%float = "2.67".
Proof. vm_compute. reflexivity. Qed.

Example format_f_neg_zero : format_f 1 (-0.04)%float = "-0.0".
Proof. vm_compute. reflexivity. Qed.

Example format_f_pad : format_f 2 1.005%float = "1.00".
Proof. vm_compute. reflexivity. Qed.

Example format_cell_int : format_cell 1 (CInt 25) = Ok "25.0".
Proof. vm_compute. reflexivity. Qed.

Example parse_iso_ejemplo : parse_iso "2024-01-01 10:00:00" = Some (seconds 1704103200).
Proof. vm_compute. reflexivity. Qed.

Example parse_iso_leap_day : parse_iso "2023-02-29 10:00:00" = None.
Proof. vm_compute. reflexivity. Qed.

Example load_data_ejemplo :
  load_data pandas_iso (remote_serving records_ejemplo fetch_time)
  = ([], Ok frame_ejemplo).
Proof. vm_compute. reflexivity. Qed.

Example metrics_ejemplo :
  metrics pandas_iso frame_ejemplo
  = ([(Col 1, st_metric "📊 Total Registros" "2");
      (Col 2, st_metric "⚡ Voltaje Promedio" "3.25 V");
      (Col 3, st_metric "🌡️ Temp. Actual" "25.6 °C");
      (Col 4, st_metric "💧 Humedad Actual" "59.8 %")], Ok tt).
Proof. vm_compute. reflexivity. Qed.

(* ================================================================== *)
(** ** Frames: lookups and updates *)

Section FrameFacts.

Lemma existsb_eqb_In (k : string) (l : list string) :
  existsb (String.eqb k) l = true <-> In k l.
Proof.
  rewrite existsb_exists. split.
  - intros [k' [Hin Heq]]. apply String.eqb_eq in Heq. now subst.
  - intros Hin. exists k. split; [assumption | apply String.eqb_refl].
Qed.

Lemma in_columns_In (k : string) (df : DataFrame) :
  in_columns k df = true <-> In k (columns df).
Proof. apply existsb_eqb_In. Qed.

Lemma dict_get_keyed {A : Type} (f : string -> A) (k : string) (ks : list string) :
  dict_get k (map (fun k' => (k', f k')) ks)
  = if existsb (String.eqb k) ks then Some (f k) else None.
Proof.
  induction ks as [| k' ks IH]; simpl; [reflexivity |].
  destruct (String.eqb k k') eqn:E.
  - apply String.eqb_eq in E. now subst.
  - exact IH.
Qed.

Lemma columns_of_records (records : list record) :
  columns (DataFrame_of_records records) = keys_of records.
Proof.
  unfold columns, DataFrame_of_records. simpl.
  rewrite map_map. simpl. apply map_id.
Qed.

Lemma getitem_of_records (records : list record) (k : string) :
  in_columns k (DataFrame_of_records records) = true ->
  getitem (DataFrame_of_records records) k = Ok (Cells (map (cell_of k) records)).
Proof.
  intros H. unfold getitem, DataFrame_of_records. simpl.
  rewrite (dict_get_keyed (fun k => Cells (map (cell_of k) records))).
  unfold in_columns in H. rewrite columns_of_records in H. now rewrite H.
Qed.

Lemma getitem_in_columns (df : DataFrame) (k : string) (c : column) :
  getitem df k = Ok c -> in_columns k df = true.
Proof.
  unfold getitem, in_columns, columns. destruct df as [n d]. simpl.
  induction d as [| [k' c'] d IH]; simpl; [discriminate |].
  destruct (String.eqb k k'); [reflexivity | exact IH].
Qed.

Lemma getitem_dict_get (df : DataFrame) (k : string) (c : column) :
  getitem df k = Ok c <-> dict_get k (data df) = Some c.
Proof.
  unfold getitem. destruct (dict_get k (data df)); split; intros H;
    inversion H; reflexivity.
Qed.

Lemma dict_get_upsert_same (name : string) (c : column) (d : list (string * column)) :
  dict_get name (upsert name c d) = Some c.
Proof.
  induction d as [| [k c'] d IH]; simpl.
  - now rewrite String.eqb_refl.
  - destruct (String.eqb name k) eqn:E; simpl.
    + now rewrite String.eqb_refl.
    + now rewrite E.
Qed.

Lemma dict_get_upsert_other (name k : string) (c : column) (d : list (string * column)) :
  k <> name ->
  dict_get k (upsert name c d) = dict_get k d.
Proof.
  intros Hne. apply String.eqb_neq in Hne.
  induction d as [| [k' c'] d IH]; simpl.
  - now rewrite Hne.
  - destruct (String.eqb name k') eqn:E; simpl.
    + apply String.eqb_eq in E. subst k'. now rewrite Hne.
    + now rewrite IH.
Qed.


Lemma upsert_length (name : string) (c : column) (d : list (string * column)) :
  (0 < List.length (upsert name c d))%nat.
Proof.
  destruct d as [| [k c'] d]; simpl; [lia |].
  destruct (String.eqb name k); simpl; lia.
Qed.

Lemma upsert_names (name : string) (c : column) (d : list (string * column)) :
  map fst (upsert name c d)
  = if existsb (String.eqb name) (map fst d)
    then map fst d
    else (map fst d ++ [name])%list.
Proof.
  induction d as [| [k c'] d IH]; simpl; [reflexivity |].
  destruct (String.eqb name k) eqn:E; simpl.
  - apply String.eqb_eq in E. now subst.
  - rewrite IH. now destruct (existsb (String.eqb name) (map fst d)).
Qed.

Lemma setitem_fits (df : DataFrame) (name : string) (c : column) :
  column_len c = index_len df ->
  setitem df name c = Ok (mkDataFrame (index_len df) (upsert name c (data df))).
Proof.
  intros H. unfold setitem. now rewrite H, Nat.eqb_refl.
Qed.

Lemma mapM_length {A B : Type} (f : A -> result B) (l : list A) (l' : list B) :
  mapM f l = Ok l' -> List.length l' = List.length l.
Proof.
  revert l'. induction l as [| a l IH]; simpl; intros l' H.
  - now inversion H.
  - destruct (f a) as [b | e]; simpl in H; [| discriminate].
    destruct (mapM f l) as [bs | e]; simpl in H; [| discriminate].
    inversion H. simpl. f_equal. now apply IH.
Qed.

Lemma mapM_nth_error {A B : Type} (f : A -> result B) (l : list A) (l' : list B) :
  mapM f l = Ok l' ->
  forall i a, nth_error l i = Some a -> exists b, f a = Ok b /\ nth_error l' i = Some b.
Proof.
  revert l'. induction l as [| a0 l IH]; simpl; intros l' H i a Hi.
  - destruct i; discriminate.
  - destruct (f a0) as [b0 | e] eqn:E0; simpl in H; [| discriminate].
    destruct (mapM f l) as [bs | e]; simpl in H; [| discriminate].
    inversion H. subst l'. destruct i as [| i]; simpl in *.
    + inversion Hi. subst a0. now exists b0.
    + now apply (IH bs eq_refl i a).
Qed.

Lemma to_datetime_length (P : Pandas) (c t : column) :
  to_datetime P c = Ok t -> column_len t = column_len c.
Proof.
  destruct c as [cs | ts]; simpl; intros H.
  - destruct (mapM (to_datetime_cell P cs) cs) as [ts | e] eqn:E; simpl in H;
      [| discriminate].
    inversion H. simpl. now apply mapM_length in E.
  - now inversion H.
Qed.

Lemma date_range_length (start : Z) (periods : nat) (freq : Z) :
  List.length (date_range start periods freq) = periods.
Proof. unfold date_range. now rewrite length_map, length_seq. Qed.

Lemma date_range_nth (start : Z) (periods : nat) (freq : Z) (i : nat) :
  (i < periods)%nat ->
  nth_error (date_range start periods freq) i = Some (start + Z.of_nat i * freq).
Proof.
  intros H. unfold date_range.
  rewrite nth_error_map, nth_error_seq.
  destruct (Nat.ltb_spec i periods); [reflexivity | lia].
Qed.

End FrameFacts.

(* ================================================================== *)
(** ** The loader: which column becomes the time axis *)

Section Loader.

Variable P : Pandas.

(** The frame that [normalize] returns, by the origin of its instants. *)
Lemma normalize_by_origin (now : Z) (records : list record) :
  normalize P now records
  = match spec_timestamp_origin (keys_of records) with
    | ParsedFrom name =>
        t <- to_datetime P (Cells (map (cell_of name) records)) ;;
        Ok (with_FechaHora records t)
    | Synthesized =>
        Ok (with_FechaHora records
              (Datetimes (map Some (date_range (now - timedelta_days 1)
                                      (List.length records) (seconds 10)))))
    end.
Proof.
  unfold normalize, spec_timestamp_origin.
  assert (Hin : forall k, in_columns k (DataFrame_of_records records)
                          = existsb (String.eqb k) (keys_of records)).
  { intros k. unfold in_columns. now rewrite columns_of_records. }
  assert (Hparsed : forall k,
             in_columns k (DataFrame_of_records records) = true ->
             (c <- getitem (DataFrame_of_records records) k ;;
              t <- to_datetime P c ;;
              setitem (DataFrame_of_records records) "FechaHora" t)
             = (t <- to_datetime P (Cells (map (cell_of k) records)) ;;
                Ok (with_FechaHora records t))).
  { intros k Hk. rewrite (getitem_of_records _ _ Hk). cbn [bind].
    destruct (to_datetime P (Cells (map (cell_of k) records))) as [t | e] eqn:E;
      [| reflexivity].
    cbn [bind]. apply to_datetime_length in E. simpl in E. rewrite length_map in E.
    now rewrite setitem_fits. }
  rewrite <- !Hin.
  destruct (in_columns "FechaHora" (DataFrame_of_records records)) eqn:E1.
  - now apply Hparsed.
  - destruct (in_columns "Timestamp" (DataFrame_of_records records)) eqn:E2.
    + now apply Hparsed.
    + rewrite setitem_fits; [reflexivity |].
      simpl. now rewrite length_map, date_range_length.
Qed.



Lemma origin_Synthesized (cols : list string) :
  ~ In "FechaHora" cols -> ~ In "Timestamp" cols ->
  spec_timestamp_origin cols = Synthesized.
Proof.
  intros H1 H2. unfold spec_timestamp_origin.
  destruct (existsb (String.eqb "FechaHora") cols) eqn:E1;
    [now apply existsb_eqb_In in E1 |].
  destruct (existsb (String.eqb "Timestamp") cols) eqn:E2;
    [now apply existsb_eqb_In in E2 | reflexivity].
Qed.

(** The frame that [normalize] returns has the records as its rows and a
    column of instants named 'FechaHora'. *)
Lemma normalize_shape (now : Z) (records : list record) (df : DataFrame) :
  normalize P now records = Ok df ->
  exists ts, df = with_FechaHora records (Datetimes ts)
             /\ List.length ts = List.length records.
Proof.
  rewrite normalize_by_origin.
  destruct (spec_timestamp_origin (keys_of records)) as [name |].
  - simpl to_datetime.
    destruct (mapM _ _) as [ts | e] eqn:E; simpl; intros H; inversion H.
    exists ts. split; [reflexivity |].
    apply mapM_length in E. now rewrite length_map in E.
  - intros H. inversion H. eexists. split; [reflexivity |].
    now rewrite length_map, date_range_length.
Qed.

Lemma resolved_timestamp_with (records : list record) (ts : list (option Z)) (i : nat) :
  resolved_timestamp (with_FechaHora records (Datetimes ts)) i
  = match nth_error ts i with Some (Some t) => Some t | _ => None end.
Proof.
  unfold resolved_timestamp, with_FechaHora. simpl.
  now rewrite dict_get_upsert_same.
Qed.

(** A blank cell of the parsed column gives a missing instant, whatever
    the parser. *)
Lemma to_datetime_cell_blank (col : list cell) :
  to_datetime_cell P col (CStr "") = Ok None.
Proof. reflexivity. Qed.

End Loader.

(* ================================================================== *)
(** ** The loader: what it returns *)

Lemma load_data_returns (P : Pandas) (R : Remote) (df : DataFrame) :
  load_data_try P R = Ok df -> load_data P R = ([], Ok df).
Proof. intros H. unfold load_data, lift, try_except. now rewrite H. Qed.

Lemma load_data_catches (P : Pandas) (R : Remote) (e : exn) :
  load_data_try P R = Raise e ->
  load_data P R
  = ([(Main, st_error ("Error cargando datos: " ++ str_exn e))], Ok DataFrame_empty).
Proof. intros H. unfold load_data, lift, try_except. now rewrite H. Qed.

(** [load_data] never raises: the handler returns the empty frame. *)
Lemma load_data_never_raises (P : Pandas) (R : Remote) :
  exists df, outcome (load_data P R) = Ok df.
Proof.
  destruct (load_data_try P R) as [df | e] eqn:E.
  - exists df. now rewrite (load_data_returns _ _ _ E).
  - exists DataFrame_empty. now rewrite (load_data_catches _ _ _ E).
Qed.

(** The [try] block raises exactly in the ways listed by [load_failure]. *)
Lemma load_failure_iff (P : Pandas) (R : Remote) (e : exn) :
  load_failure P R e <-> load_data_try P R = Raise e.
Proof.
  unfold load_data_try. split.
  - intros [H | c H1 H | c cl H1 H2 H | c cl s H1 H2 H3 H
            | c cl s w H1 H2 H3 H4 H | records H1 H].
    + unfold fetch. now rewrite H.
    + unfold fetch. rewrite H1. cbn [bind]. now rewrite H.
    + unfold fetch. rewrite H1. cbn [bind]. rewrite H2. cbn [bind]. now rewrite H.
    + unfold fetch. rewrite H1. cbn [bind]. rewrite H2. cbn [bind].
      rewrite H3. cbn [bind]. now rewrite H.
    + unfold fetch. rewrite H1. cbn [bind]. rewrite H2. cbn [bind].
      rewrite H3. cbn [bind]. rewrite H4. cbn [bind]. now rewrite H.
    + rewrite H1. cbn [bind]. exact H.
  - destruct (fetch R) as [records | e'] eqn:E; cbn [bind]; intros H.
    + now apply (malformed_sheet P R e records).
    + inversion H. subst e'. clear H. unfold fetch in E.
      destruct (from_service_account_file R "credentials.json" SCOPES) as [c | e1] eqn:E1;
        cbn [bind] in E; [| inversion E; subst; now apply credentials_failure].
      destruct (authorize R c) as [cl | e2] eqn:E2;
        cbn [bind] in E; [| inversion E; subst; now apply (authorize_failure P R e c)].
      destruct (open_by_key R cl SPREADSHEET_ID) as [s | e3] eqn:E3;
        cbn [bind] in E; [| inversion E; subst; now apply (open_failure P R e c cl)].
      destruct (sheet1 R s) as [w | e4] eqn:E4;
        cbn [bind] in E; [| inversion E; subst; now apply (worksheet_failure P R e c cl s)].
      now apply (records_failure P R e c cl s w).
Qed.

(** C3.  Whatever fails in [load_data] (the credential file, a call to
    the backend, a sheet that does not read as a frame), [load_data] does
    not raise: it renders the diagnostic "Error cargando datos: ..." and
    returns the empty frame. *)
Theorem load_data_failure_gives_empty (P : Pandas) (R : Remote) (e : exn) :
  load_failure P R e ->
  load_data P R
  = ([(Main, st_error ("Error cargando datos: " ++ str_exn e))], Ok DataFrame_empty)
  /\ empty DataFrame_empty = true.
Proof.
  intros H. apply load_failure_iff in H. split.
  - now apply load_data_catches.
  - reflexivity.
Qed.

Lemma load_data_failure_gives_empty_witness :
  load_failure pandas_iso (remote_without_credentials fetch_time)
    (Exception "FileNotFoundError"
       "[Errno 2] No such file or directory: 'credentials.json'")
  /\ load_data pandas_iso (remote_without_credentials fetch_time)
     = ([(Main, st_error "Error cargando datos: [Errno 2] No such file or directory: 'credentials.json'")],
        Ok DataFrame_empty).
Proof.
  assert (H : load_failure pandas_iso (remote_without_credentials fetch_time)
                (Exception "FileNotFoundError"
                   "[Errno 2] No such file or directory: 'credentials.json'")).
  { apply credentials_failure. reflexivity. }
  split; [exact H |].
  exact (proj1 (load_data_failure_gives_empty _ _ _ H)).
Defined.

(** A sheet whose instants do not parse is such a failure. *)
Example load_data_malformed_sheet :
  load_data pandas_iso
    (remote_serving [[("FechaHora", CStr "ayer"); ("Voltaje", CFloat 3.3)]] fetch_time)
  = ([(Main, st_error "Error cargando datos: Unknown datetime string format, unable to parse: ayer")],
     Ok DataFrame_empty).
Proof. vm_compute. reflexivity. Qed.

(** C1, as stated, fails: a row whose 'FechaHora' cell is blank in the
    sheet is returned with a missing instant. *)
Lemma load_data_blank_timestamp_is_null :
  exists df,
    load_data pandas_iso (remote_serving records_blank fetch_time) = ([], Ok df)
    /\ (1 < index_len df)%nat
    /\ resolved_timestamp df 0 = Some (seconds 1704103200)
    /\ resolved_timestamp df 1 = None.
Proof.
  eexists. split; [vm_compute; reflexivity |].
  split; [simpl; lia |]. split; reflexivity.
Qed.

(** The same for every parser: the blank cell is not parsed at all. *)
Lemma blank_timestamp_is_null (P : Pandas) (now : Z) (v : cell) :
  exists df,
    normalize P now [[("FechaHora", CStr ""); ("Voltaje", v)]] = Ok df
    /\ index_len df = 1%nat
    /\ resolved_timestamp df 0 = None.
Proof. eexists. split; [reflexivity |]. split; reflexivity. Qed.

(* ================================================================== *)
(** ** The loader: the instants of 'FechaHora' *)

Lemma getitem_with_other (records : list record) (c : column) (k : string) :
  k <> "FechaHora" ->
  getitem (with_FechaHora records c) k = getitem (DataFrame_of_records records) k.
Proof.
  intros H. unfold getitem, with_FechaHora. cbn [data].
  now rewrite dict_get_upsert_other.
Qed.

Lemma getitem_with_same (records : list record) (c : column) :
  getitem (with_FechaHora records c) "FechaHora" = Ok c.
Proof.
  unfold getitem, with_FechaHora. cbn [data]. now rewrite dict_get_upsert_same.
Qed.


Lemma to_datetime_cell_parses_to (P : Pandas) (col : list cell) (c : cell)
      (t : option Z) :
  to_datetime_cell P col c = Ok t <-> parses_to P col c t.
Proof.
  unfold to_datetime_cell, parses_to. destruct (is_null c).
  - split; intros H; [now inversion H | now subst t].
  - destruct (parse_datetime P col c) as [z | e]; cbn [bind]; split.
    + intros H. inversion H. now exists z.
    + intros [z' [Hz ->]]. now inversion Hz.
    + discriminate.
    + intros [z' [Hz _]]. discriminate.
Qed.

Lemma to_datetime_instants (P : Pandas) (cs : list cell) (t : column) :
  to_datetime P (Cells cs) = Ok t ->
  exists ts, t = Datetimes ts /\ mapM (to_datetime_cell P cs) cs = Ok ts.
Proof.
  cbn [to_datetime]. destruct (mapM (to_datetime_cell P cs) cs) as [ts | e];
    cbn [bind]; intros H; [| discriminate].
  inversion H. now exists ts.
Qed.

Lemma to_datetime_column_parsed (P : Pandas) (records : list record) (name : string)
      (t : column) :
  to_datetime P (Cells (map (cell_of name) records)) = Ok t ->
  exists ts, t = Datetimes ts /\ column_parsed P records name ts.
Proof.
  intros H. destruct (to_datetime_instants _ _ _ H) as [ts [-> E]].
  exists ts. split; [reflexivity |]. split.
  - rewrite (mapM_length _ _ _ E). apply length_map.
  - intros i r Hi.
    destruct (mapM_nth_error _ _ _ E i (cell_of name r)) as [t [Ht Hn]].
    + now rewrite nth_error_map, Hi.
    + exists t. split; [exact Hn | now apply to_datetime_cell_parses_to].
Qed.


(** The cells that read as missing without being parsed. *)
Lemma is_null_listed (c : cell) :
  In c [CStr ""; CStr "NaT"; CStr "nan"; CStr "NaN"; CFloat nan] ->
  is_null c = true.
Proof.
  intros [<- | [<- | [<- | [<- | [<- | []]]]]]; vm_compute; reflexivity.
Qed.




(** C1, as the code has it.  Row by row, the 'FechaHora' of the frame
    that [load_data] returns is [NaT] exactly when the cell it was parsed
    from reads as missing, as the blank cell, the texts 'NaT', 'nan' and
    'NaN' and the float NaN do; any other cell of the parsed column gives
    the instant read in it.  When the instants are generated no row is
    missing one. *)
Theorem load_data_timestamp_null_iff (P : Pandas) (R : Remote) (df : DataFrame)
        (i : nat) :
  outcome (load_data P R) = Ok df ->
  (i < index_len df)%nat ->
  exists records r,
    fetch R = Ok records
    /\ nth_error records i = Some r
    /\ match spec_timestamp_origin (keys_of records) with
       | ParsedFrom name =>
           (resolved_timestamp df i = None <-> is_null (cell_of name r) = true)
           /\ (In (cell_of name r)
                  [CStr ""; CStr "NaT"; CStr "nan"; CStr "NaN"; CFloat nan] ->
                resolved_timestamp df i = None)
           /\ (is_null (cell_of name r) = false ->
                exists t,
                  parse_datetime P (map (cell_of name) records) (cell_of name r) = Ok t
                  /\ resolved_timestamp df i = Some t)
       | Synthesized =>
           resolved_timestamp df i
           = Some (datetime_now R - timedelta_days 1 + Z.of_nat i * seconds 10)
       end.
Proof.
  intros Hload Hi.
  destruct (load_data_try P R) as [df' | e] eqn:E.
  - rewrite (load_data_returns _ _ _ E) in Hload. inversion Hload. subst df'.
    unfold load_data_try in E.
    destruct (fetch R) as [records | e] eqn:Hfetch; cbn [bind] in E; [| discriminate].
    rewrite normalize_by_origin in E.
    exists records.
    destruct (spec_timestamp_origin (keys_of records)) as [name |] eqn:Ho.
    + destruct (to_datetime P (Cells (map (cell_of name) records))) as [t | e] eqn:Et;
        cbn [bind] in E; [| discriminate].
      inversion E. subst df. cbn [with_FechaHora index_len] in Hi.
      destruct (nth_error records i) as [r |] eqn:Hr;
        [| apply nth_error_None in Hr; lia].
      exists r. split; [reflexivity |]. split; [reflexivity |].
      destruct (to_datetime_column_parsed _ _ _ _ Et) as [ts [-> [_ Hrows]]].
      destruct (Hrows i r Hr) as [t [Ht Hp]].
      rewrite resolved_timestamp_with, Ht.
      assert (Hnull : is_null (cell_of name r) = true -> t = None).
      { intros Hn. unfold parses_to in Hp. now rewrite Hn in Hp. }
      assert (Hsome : is_null (cell_of name r) = false ->
                      exists z, parse_datetime P (map (cell_of name) records)
                                  (cell_of name r) = Ok z /\ t = Some z).
      { intros Hn. unfold parses_to in Hp. now rewrite Hn in Hp. }
      split; [| split].
      * destruct (is_null (cell_of name r)).
        -- rewrite (Hnull eq_refl). now split.
        -- destruct (Hsome eq_refl) as [z [_ ->]]. split; discriminate.
      * intros Hin. now rewrite (Hnull (is_null_listed _ Hin)).
      * intros Hn. destruct (Hsome Hn) as [z [Hz ->]]. now exists z.
    + inversion E. subst df. cbn [with_FechaHora index_len] in Hi.
      destruct (nth_error records i) as [r |] eqn:Hr;
        [| apply nth_error_None in Hr; lia].
      exists r. split; [reflexivity |]. split; [reflexivity |].
      rewrite resolved_timestamp_with, nth_error_map, date_range_nth by assumption.
      reflexivity.
  - rewrite (load_data_catches _ _ _ E) in Hload. inversion Hload. subst df.
    simpl in Hi. lia.
Qed.

(** The second row of [records_blank], whose 'FechaHora' is blank. *)
Lemma load_data_timestamp_null_iff_witness :
  outcome (load_data pandas_iso (remote_serving records_blank fetch_time))
  = Ok (with_FechaHora records_blank (Datetimes [Some (seconds 1704103200); None]))
  /\ (1 < index_len (with_FechaHora records_blank
                       (Datetimes [Some (seconds 1704103200); None])))%nat
  /\ resolved_timestamp
       (with_FechaHora records_blank (Datetimes [Some (seconds 1704103200); None])) 1
     = None.
Proof.
  assert (H : outcome (load_data pandas_iso (remote_serving records_blank fetch_time))
              = Ok (with_FechaHora records_blank
                      (Datetimes [Some (seconds 1704103200); None]))).
  { vm_compute. reflexivity. }
  assert (Hi : (1 < index_len (with_FechaHora records_blank
                                 (Datetimes [Some (seconds 1704103200); None])))%nat).
  { simpl. lia. }
  split; [exact H |]. split; [exact Hi |].
  destruct (load_data_timestamp_null_iff pandas_iso _ _ 1%nat H Hi)
    as [records [r [Hfetch [Hr Hrow]]]].
  simpl in Hfetch. inversion Hfetch. subst records.
  simpl in Hr. inversion Hr. subst r.
  change (spec_timestamp_origin (keys_of records_blank))
    with (ParsedFrom "FechaHora") in Hrow.
  destruct Hrow as [_ [Hlisted _]].
  apply Hlisted. simpl. auto.
Defined.

(* ================================================================== *)
(** ** The loader: generated instants *)

(** C2, as the code has it.  For N fetched rows with neither a
    'FechaHora' nor a 'Timestamp' column, [load_data] generates N
    instants, the first one a day before the fetch time and each next one
    exactly 10 seconds later, so that they increase strictly. *)
Theorem load_data_synthesizes (P : Pandas) (R : Remote) (records : list record) :
  fetch R = Ok records ->
  ~ In "FechaHora" (keys_of records) ->
  ~ In "Timestamp" (keys_of records) ->
  exists ts,
    load_data P R = ([], Ok (with_FechaHora records (Datetimes (map Some ts))))
    /\ List.length ts = List.length records
    /\ (forall i, (i < List.length records)%nat ->
          nth_error ts i
          = Some (datetime_now R - timedelta_days 1 + Z.of_nat i * seconds 10))
    /\ (forall i t t', nth_error ts i = Some t -> nth_error ts (S i) = Some t' ->
          t' - t = seconds 10)
    /\ (forall i j t t', (i < j)%nat -> nth_error ts i = Some t ->
          nth_error ts j = Some t' -> t < t').
Proof.
  intros Hfetch H1 H2.
  exists (date_range (datetime_now R - timedelta_days 1) (List.length records) (seconds 10)).
  assert (Hnth : forall i t,
             nth_error (date_range (datetime_now R - timedelta_days 1)
                          (List.length records) (seconds 10)) i = Some t ->
             (i < List.length records)%nat
             /\ t = datetime_now R - timedelta_days 1 + Z.of_nat i * seconds 10).
  { intros i t Hi.
    assert (Hlt : (i < List.length records)%nat).
    { rewrite <- (date_range_length (datetime_now R - timedelta_days 1)
                    (List.length records) (seconds 10)).
      apply nth_error_Some. now rewrite Hi. }
    split; [exact Hlt |].
    rewrite date_range_nth in Hi by assumption. now inversion Hi. }
  split; [| split; [| split; [| split]]].
  - apply load_data_returns. unfold load_data_try. rewrite Hfetch.
    cbn [bind]. now rewrite normalize_by_origin, origin_Synthesized.
  - apply date_range_length.
  - intros i Hi. now apply date_range_nth.
  - intros i t t' Ht Ht'.
    destruct (Hnth _ _ Ht) as [_ ->]. destruct (Hnth _ _ Ht') as [_ ->].
    unfold seconds. lia.
  - intros i j t t' Hij Ht Ht'.
    destruct (Hnth _ _ Ht) as [_ ->]. destruct (Hnth _ _ Ht') as [_ ->].
    unfold seconds. nia.
Qed.

Lemma load_data_synthesizes_witness :
  fetch (remote_serving records_untimed fetch_time) = Ok records_untimed
  /\ ~ In "FechaHora" (keys_of records_untimed)
  /\ ~ In "Timestamp" (keys_of records_untimed)
  /\ exists ts,
       load_data pandas_iso (remote_serving records_untimed fetch_time)
       = ([], Ok (with_FechaHora records_untimed (Datetimes (map Some ts))))
       /\ nth_error ts 0 = Some (seconds 1704103200)
       /\ nth_error ts 1 = Some (seconds 1704103210).
Proof.
  assert (H1 : ~ In "FechaHora" (keys_of records_untimed)).
  { simpl. intros [H | [H | H]]; try discriminate; exact H. }
  assert (H2 : ~ In "Timestamp" (keys_of records_untimed)).
  { simpl. intros [H | [H | H]]; try discriminate; exact H. }
  split; [reflexivity |]. split; [exact H1 |]. split; [exact H2 |].
  destruct (load_data_synthesizes pandas_iso
              (remote_serving records_untimed fetch_time) records_untimed
              eq_refl H1 H2) as [ts [Hload [_ [Hnth _]]]].
  exists ts. split; [exact Hload |].
  split; [apply (Hnth 0%nat) | apply (Hnth 1%nat)]; simpl; lia.
Defined.

(** C2, as stated, fails: the generated instants start a day before the
    fetch time, so the last of the two generated here is 23 h 59 min 50 s
    before it. *)
Lemma load_data_synthetic_range_ends_early :
  exists ts t,
    load_data pandas_iso (remote_serving records_untimed fetch_time)
    = ([], Ok (with_FechaHora records_untimed (Datetimes (map Some ts))))
    /\ List.length ts = 2%nat
    /\ last ts 0 = t
    /\ fetch_time - t = seconds 86390
    /\ (t =? datetime_now (remote_serving records_untimed fetch_time)) = false.
Proof.
  exists [seconds 1704103200; seconds 1704103210], (seconds 1704103210).
  split; [vm_compute; reflexivity |].
  split; [reflexivity |]. split; [reflexivity |]. split; reflexivity.
Qed.

(* ================================================================== *)
(** ** The loader: the columns it leaves alone *)

Lemma add_keys_In (k : string) (ks seen : list string) :
  In k (add_keys seen ks) <-> In k seen \/ In k ks.
Proof.
  revert seen. induction ks as [| k' ks IH]; intros seen; simpl.
  - tauto.
  - destruct (existsb (String.eqb k') seen) eqn:E.
    + rewrite IH. apply existsb_eqb_In in E.
      split; [tauto |]. intros [H | [H | H]]; subst; tauto.
    + rewrite IH, in_app_iff. simpl. tauto.
Qed.

Lemma fold_add_keys_In (k : string) (records : list record) (seen : list string) :
  In k (fold_left (fun seen r => add_keys seen (map fst r)) records seen)
  <-> In k seen \/ exists r, In r records /\ In k (map fst r).
Proof.
  revert seen. induction records as [| r records IH]; intros seen; simpl.
  - split; [tauto |]. intros [H | [r [[] _]]]. exact H.
  - rewrite IH, add_keys_In. split.
    + intros [[H | H] | [r' [H1 H2]]]; [tauto | right; exists r; tauto |].
      right. exists r'. tauto.
    + intros [H | [r' [[H1 | H1] H2]]]; [tauto | subst; tauto |].
      right. exists r'. tauto.
Qed.

Lemma keys_of_In (k : string) (records : list record) :
  In k (keys_of records) <-> exists r, In r records /\ In k (map fst r).
Proof.
  unfold keys_of. rewrite fold_add_keys_In. simpl. tauto.
Qed.

Lemma dict_get_In {A : Type} (k : string) (d : list (string * A)) (v : A) :
  dict_get k d = Some v -> In k (map fst d).
Proof.
  induction d as [| [k' v'] d IH]; simpl; [discriminate |].
  destruct (String.eqb k k') eqn:E.
  - apply String.eqb_eq in E. auto.
  - auto.
Qed.

Lemma normalize_keeps_columns (P : Pandas) (now : Z) (records : list record)
      (df : DataFrame) (k : string) :
  normalize P now records = Ok df ->
  k <> "FechaHora" -> In k (keys_of records) ->
  getitem df k = Ok (Cells (map (cell_of k) records)).
Proof.
  intros Hnorm Hk Hin. apply normalize_shape in Hnorm.
  destruct Hnorm as [ts [-> _]]. rewrite getitem_with_other by assumption.
  apply getitem_of_records, in_columns_In. now rewrite columns_of_records.
Qed.

Example load_data_keeps_Timestamp :
  load_data pandas_iso (remote_serving records_timestamp fetch_time)
  = ([], Ok (mkDataFrame 2
       [("Timestamp", Cells [CStr "2024-01-01 10:00:00"; CStr "2024-01-01 10:00:10"]);
        ("Voltaje", Cells [CFloat 3.3; CFloat 3.2]);
        ("FechaHora", Datetimes [Some (seconds 1704103200); Some (seconds 1704103210)])])).
Proof. vm_compute. reflexivity. Qed.






(* ================================================================== *)
(** ** Rendering: events and outcomes of a sequence *)

Section Rendering.

Context {A B : Type}.

Lemma outcome_bind (m : ui A) (k : A -> ui B) :
  outcome (ui_bind m k)
  = match outcome m with
    | Ok a => outcome (k a)
    | Raise e => Raise e
    end.
Proof.
  destruct m as [evs [a | e]]; simpl; [| reflexivity].
  now destruct (k a).
Qed.

Lemma rendered_bind (m : ui A) (k : A -> ui B) :
  rendered (ui_bind m k)
  = match outcome m with
    | Ok a => (rendered m ++ rendered (k a))%list
    | Raise _ => rendered m
    end.
Proof.
  destruct m as [evs [a | e]]; simpl; [| reflexivity].
  now destruct (k a).
Qed.

Lemma bind_raises (m : ui A) (k : A -> ui B) (e : exn) :
  outcome m = Raise e -> outcome (ui_bind m k) = Raise e.
Proof. intros H. now rewrite outcome_bind, H. Qed.

Lemma bind_raises_later (m : ui A) (k : A -> ui B) (a : A) (e : exn) :
  outcome m = Ok a -> outcome (k a) = Raise e -> outcome (ui_bind m k) = Raise e.
Proof. intros H1 H2. now rewrite outcome_bind, H1. Qed.

Lemma without_bind (f : event -> bool) (m : ui A) (k : A -> ui B) :
  without f m -> (forall a, without f (k a)) -> without f (ui_bind m k).
Proof.
  unfold without. intros Hm Hk. rewrite rendered_bind.
  destruct (outcome m) as [a | e]; [| exact Hm].
  rewrite existsb_app, Hm. apply Hk.
Qed.

End Rendering.

Lemma without_emit (f : event -> bool) (c : container) (e : element) :
  f (c, e) = false -> without f (emit c e).
Proof. unfold without. simpl. intros ->. reflexivity. Qed.

Lemma without_lift (f : event -> bool) {A : Type} (r : result A) :
  without f (lift r).
Proof. reflexivity. Qed.

Lemma without_ret (f : event -> bool) {A : Type} (a : A) :
  without f (ret a).
Proof. reflexivity. Qed.

Lemma without_for_each (f : event -> bool) {A : Type} (l : list A) (body : A -> ui unit) :
  (forall a, without f (body a)) -> without f (for_each l body).
Proof.
  intros H. induction l as [| a l IH]; simpl.
  - apply without_ret.
  - apply without_bind; [apply H | intros _; exact IH].
Qed.

(* ================================================================== *)
(** ** The presenter: which view is rendered *)

Ltac without_step :=
  first
    [ apply without_emit; reflexivity
    | apply without_lift
    | apply without_ret
    | apply without_for_each; intros
    | apply without_bind; [| intros] ].

Lemma metrics_without_fallback (P : Pandas) (df : DataFrame) :
  without in_fallback (metrics P df).
Proof.
  unfold metrics, voltage_metric, temperature_metric, humidity_metric.
  repeat without_step.
  - destruct (in_columns "Voltaje" df); repeat without_step.
  - destruct (in_columns "Temperatura" df); repeat without_step.
  - destruct (in_columns "Humedad" df); repeat without_step.
Qed.

Lemma chart_without_fallback (U : User) (df : DataFrame) :
  without in_fallback (chart U df).
Proof.
  unfold chart. destruct (in_columns "FechaHora" df); repeat without_step.
  match goal with |- without _ (match ?l with _ => _ end) => destruct l end;
    repeat without_step.
  match goal with |- without _ (match ?l with _ => _ end) => destruct l end;
    repeat without_step.
Qed.

Lemma tables_without_fallback (df : DataFrame) :
  without in_fallback (tables df).
Proof. unfold tables. repeat without_step. Qed.

Lemma dashboard_without_fallback (P : Pandas) (U : User) (df : DataFrame) :
  without in_fallback (dashboard P U df).
Proof.
  unfold dashboard.
  apply without_bind; [without_step | intros].
  apply without_bind; [apply metrics_without_fallback | intros].
  apply without_bind; [without_step | intros].
  apply without_bind; [destruct (negb (empty df)); repeat without_step | intros].
  apply without_bind; [apply chart_without_fallback | intros].
  apply tables_without_fallback.
Qed.

(** What the troubleshooting view renders. *)
Lemma fallback_renders :
  fallback
  = ([(Main, st_error "❌ No se pudieron cargar los datos");
      (Expander "🔧 Solución de problemas" true,
       st_dataframe
         (mkDataFrame 2 (map (fun kc => (fst kc, Cells (snd kc))) ejemplo_data)))],
     Ok tt).
Proof. reflexivity. Qed.

(** C6.  For an empty frame the presenter renders the troubleshooting
    view, the error line and the frame of the example record, and no
    chart; for a frame that is not empty it renders none of the events of
    the troubleshooting view. *)
Theorem presenter_branches_on_empty (P : Pandas) (U : User) (df : DataFrame) :
  (empty df = true ->
     presenter P U df
     = ([(Main, st_error "❌ No se pudieron cargar los datos");
         (Expander "🔧 Solución de problemas" true,
          st_dataframe
            (mkDataFrame 2 (map (fun kc => (fst kc, Cells (snd kc))) ejemplo_data)))],
        Ok tt)
     /\ forallb in_fallback (rendered (presenter P U df)) = true
     /\ existsb is_chart (rendered (presenter P U df)) = false)
  /\ (empty df = false ->
        presenter P U df = dashboard P U df
        /\ existsb in_fallback (rendered (presenter P U df)) = false).
Proof.
  unfold presenter. split; intros H; rewrite H; simpl negb; cbv iota.
  - rewrite fallback_renders. repeat split.
  - split; [reflexivity | apply dashboard_without_fallback].
Qed.

Lemma presenter_branches_on_empty_witness :
  (empty DataFrame_empty = true
   /\ rendered (presenter pandas_iso user_idle DataFrame_empty)
      = [(Main, st_error "❌ No se pudieron cargar los datos");
         (Expander "🔧 Solución de problemas" true,
          st_dataframe
            (mkDataFrame 2 (map (fun kc => (fst kc, Cells (snd kc))) ejemplo_data)))])
  /\ (empty frame_ejemplo = false
      /\ existsb in_fallback (rendered (presenter pandas_iso user_idle frame_ejemplo)) = false
      /\ existsb is_chart (rendered (presenter pandas_iso user_idle frame_ejemplo)) = true).
Proof.
  split.
  - split; [reflexivity |].
    rewrite (proj1 (proj1 (presenter_branches_on_empty pandas_iso user_idle DataFrame_empty)
                      eq_refl)).
    reflexivity.
  - split; [reflexivity |]. split.
    + exact (proj2 (proj2 (presenter_branches_on_empty pandas_iso user_idle frame_ejemplo)
                      eq_refl)).
    + vm_compute. reflexivity.
Defined.

(* ================================================================== *)
(** ** The presenter: the metrics *)

Lemma nanmean_of_readings (P : Pandas) (cs : list cell) :
  (0 < List.length cs)%nat ->
  forallb is_reading cs = true ->
  nanmean P (map to_float cs)
  = (add_reduce P (map to_float cs)
     / float_of_Z (Z.of_nat (List.length cs)))%float.
Proof.
  intros Hlen Hall. unfold nanmean.
  assert (Hnan : forall x, In x (map to_float cs) -> is_nan x = false).
  { intros x Hx. apply in_map_iff in Hx. destruct Hx as [c [<- Hc]].
    rewrite forallb_forall in Hall. specialize (Hall c Hc).
    unfold is_reading in Hall. apply andb_true_iff in Hall.
    destruct Hall as [_ Hall]. now apply negb_true_iff in Hall. }
  assert (Hfill : map (fun x => if is_nan x then 0%float else x) (map to_float cs)
                  = map to_float cs).
  { rewrite <- (map_id (map to_float cs)) at 2. apply map_ext_in.
    intros x Hx. now rewrite (Hnan x Hx). }
  assert (Hpresent : present (map to_float cs) = map to_float cs).
  { unfold present. apply forallb_filter_id. apply forallb_forall.
    intros x Hx. now rewrite (Hnan x Hx). }
  rewrite Hfill, Hpresent, length_map.
  destruct (List.length cs); [lia | reflexivity].
Qed.

Lemma iloc_last (init : list cell) (c : cell) :
  iloc (Cells (init ++ [c])) (-1) = Ok (SCell c).
Proof.
  unfold iloc. cbn [column_len]. rewrite length_app. simpl List.length.
  replace (-1 <? 0) with true by reflexivity.
  replace (-1 + Z.of_nat (List.length init + 1)) with (Z.of_nat (List.length init)) by lia.
  replace ((0 <=? Z.of_nat (List.length init))
           && (Z.of_nat (List.length init) <? Z.of_nat (List.length init + 1)))
    with true.
  - rewrite Nat2Z.id, nth_error_app2, Nat.sub_diag by lia. reflexivity.
  - symmetry. apply andb_true_iff. split; [apply Z.leb_le | apply Z.ltb_lt]; lia.
Qed.

Lemma temperature_metric_last (df : DataFrame) (init : list cell) (c : cell) :
  getitem df "Temperatura" = Ok (Cells (init ++ [c])) ->
  temperature_metric df
  = match format_cell 1 c with
    | Ok v => ([(Col 3, st_metric "🌡️ Temp. Actual" (v ++ " °C"))], Ok tt)
    | Raise e => ([], Raise e)
    end.
Proof.
  intros Hget. unfold temperature_metric.
  rewrite (getitem_in_columns _ _ _ Hget), Hget. cbn [bind].
  rewrite iloc_last. cbn [bind format_scalar].
  now destruct (format_cell 1 c).
Qed.

Lemma humidity_metric_last (df : DataFrame) (init : list cell) (c : cell) :
  getitem df "Humedad" = Ok (Cells (init ++ [c])) ->
  humidity_metric df
  = match format_cell 1 c with
    | Ok v => ([(Col 4, st_metric "💧 Humedad Actual" (v ++ " %"))], Ok tt)
    | Raise e => ([], Raise e)
    end.
Proof.
  intros Hget. unfold humidity_metric.
  rewrite (getitem_in_columns _ _ _ Hget), Hget. cbn [bind].
  rewrite iloc_last. cbn [bind format_scalar].
  now destruct (format_cell 1 c).
Qed.

Lemma format_cell_formattable (d : nat) (c : cell) :
  formattable c = true -> format_cell d c = Ok (format_f d (to_float c)).
Proof.
  destruct c as [n | x | s]; simpl; [| reflexivity | discriminate].
  intros H. apply negb_true_iff in H. now rewrite H.
Qed.

Lemma format_cell_str (d : nat) (c : cell) :
  is_str c = true ->
  format_cell d c
  = Raise (Exception "ValueError" "Unknown format code 'f' for object of type 'str'").
Proof. destruct c; simpl; [discriminate | discriminate | reflexivity]. Qed.

(** A column of numbers holds no text and is not empty. *)
Lemma numeric_no_str (cs : list cell) :
  numeric (dtype_of (Cells cs)) = true ->
  existsb is_str cs = false /\ (0 < List.length cs)%nat.
Proof.
  unfold dtype_of. destruct cs as [| c cs]; [discriminate |].
  destruct (existsb is_str (c :: cs)); [discriminate |].
  intros _. split; [reflexivity | simpl; lia].
Qed.

Lemma fold_left_add_sum (xs l : list float) (a : float) :
  float_sum l a -> float_sum (l ++ xs) (fold_left PrimFloat.add xs a).
Proof.
  revert l a. induction xs as [| x xs IH]; intros l a H; simpl.
  - now rewrite app_nil_r.
  - replace (l ++ x :: xs)%list with ((l ++ [x]) ++ xs)%list
      by (now rewrite <- app_assoc).
    apply IH. apply (sum_add l [x]); [apply Permutation_refl | exact H | apply sum_one].
Qed.

(** Adding from left to right is a sum. *)
Lemma pandas_iso_sums : sums pandas_iso.
Proof. intros xs. apply (fold_left_add_sum xs [] 0%float). apply sum_none. Qed.

(** C7, as stated, fails for a voltage column that holds a cell that is
    not a reading.  With a cell left blank in the sheet the metric is not
    shown at all: the mean raises.  With a cell that reads 'nan' the
    metric shows the mean of the other cells. *)
Lemma blank_voltage_has_no_mean :
  (exists df,
     load_data pandas_iso (remote_serving records_blank_voltage fetch_time) = ([], Ok df)
     /\ getitem df "Voltaje" = Ok (Cells [CFloat 3.3; CStr ""])
     /\ voltage_metric pandas_iso df
        = ([], Raise (Exception "TypeError"
                        "unsupported operand type(s) for +: 'float' and 'str'")))
  /\ (exists df,
        load_data pandas_iso (remote_serving records_nan_voltage fetch_time) = ([], Ok df)
        /\ getitem df "Voltaje" = Ok (Cells [CFloat 3.3; CFloat nan])
        /\ voltage_metric pandas_iso df
           = ([(Col 2, st_metric "⚡ Voltaje Promedio" "3.30 V")], Ok tt)).
Proof.
  split; eexists; (split; [vm_compute; reflexivity |]);
    split; vm_compute; reflexivity.
Qed.

(** C7, as the code has it.  For a voltage column of numbers (its dtype
    is [int64], [uint64] or [float64]) the metric shows a number with two
    decimals and the unit.  When no cell is missing the number is the
    arithmetic mean of the column: a binary64 sum of its values over
    their count.  Cells that are missing are left out: the number is a
    sum of the values, zero standing for each missing one, over the count
    of those that are not missing, and 'nan' when all are.  For a column
    that holds a text the metric is not shown: the mean raises a
    [TypeError]. *)
Theorem voltage_metric_is_mean_of_numbers (P : Pandas) (df : DataFrame)
        (cs : list cell) :
  getitem df "Voltaje" = Ok (Cells cs) ->
  (existsb is_str cs = true ->
     voltage_metric P df
     = ([], Raise (Exception "TypeError" (mean_type_error P cs))))
  /\ (numeric (dtype_of (Cells cs)) = true -> sums P ->
        exists m,
          voltage_metric P df
          = ([(Col 2, st_metric "⚡ Voltaje Promedio" (format_f 2 m ++ " V"))], Ok tt)
          /\ (forallb is_reading cs = true -> mean_of (map to_float cs) m)
          /\ (present (map to_float cs) <> [] ->
                exists s,
                  float_sum (missing_as_zero (map to_float cs)) s
                  /\ m = (s / float_of_Z
                               (Z.of_nat (List.length (present (map to_float cs)))))%float)
          /\ (present (map to_float cs) = [] -> format_f 2 m = "nan")).
Proof.
  intros Hget. split.
  - intros Hstr. unfold voltage_metric.
    rewrite (getitem_in_columns _ _ _ Hget), Hget. cbn [bind Series_mean].
    now rewrite Hstr.
  - intros Hnum Hsums. destruct (numeric_no_str _ Hnum) as [Hstr Hlen].
    exists (nanmean P (map to_float cs)). split; [| split; [| split]].
    + unfold voltage_metric.
      rewrite (getitem_in_columns _ _ _ Hget), Hget. cbn [bind Series_mean].
      now rewrite Hstr.
    + intros Hall. rewrite (nanmean_of_readings P _ Hlen Hall).
      exists (add_reduce P (map to_float cs)).
      split; [apply Hsums | now rewrite length_map].
    + intros Hpresent. unfold nanmean.
      destruct (List.length (present (map to_float cs))) as [| n] eqn:Hcount.
      * apply length_zero_iff_nil in Hcount. contradiction.
      * exists (add_reduce P (missing_as_zero (map to_float cs))).
        split; [apply Hsums | reflexivity].
    + intros Hpresent. unfold nanmean. rewrite Hpresent. reflexivity.
Qed.

(** For 'Voltaje' = [3.3, 3.2] the metric shows 3.25. *)
Lemma voltage_metric_is_mean_of_numbers_witness :
  getitem frame_ejemplo "Voltaje" = Ok (Cells [CFloat 3.3; CFloat 3.2])
  /\ numeric (dtype_of (Cells [CFloat 3.3; CFloat 3.2])) = true
  /\ sums pandas_iso
  /\ voltage_metric pandas_iso frame_ejemplo
     = ([(Col 2, st_metric "⚡ Voltaje Promedio" "3.25 V")], Ok tt)
  /\ exists m,
       mean_of [3.3; 3.2]%float m
       /\ voltage_metric pandas_iso frame_ejemplo
          = ([(Col 2, st_metric "⚡ Voltaje Promedio" (format_f 2 m ++ " V"))], Ok tt).
Proof.
  split; [reflexivity |]. split; [reflexivity |]. split; [exact pandas_iso_sums |].
  split; [vm_compute; reflexivity |].
  destruct (voltage_metric_is_mean_of_numbers pandas_iso frame_ejemplo
              [CFloat 3.3; CFloat 3.2] eq_refl)
    as [_ Hnumbers].
  destruct (Hnumbers eq_refl pandas_iso_sums) as [m [Hshown [Hmean _]]].
  exists m. split; [exact (Hmean eq_refl) | exact Hshown].
Defined.

(** C8, as stated, fails when the cell of the last row is not a number:
    with the last temperature left blank in the sheet the metric is not
    shown, the format raises. *)
Lemma blank_last_temperature_is_not_shown :
  exists df,
    load_data pandas_iso (remote_serving records_blank_temperature fetch_time)
    = ([], Ok df)
    /\ empty df = false
    /\ getitem df "Temperatura" = Ok (Cells [CFloat 25.5; CStr ""])
    /\ temperature_metric df
       = ([], Raise (Exception "ValueError"
                       "Unknown format code 'f' for object of type 'str'")).
Proof.
  eexists. split; [vm_compute; reflexivity |].
  split; [reflexivity |]. split; vm_compute; reflexivity.
Qed.

(** C8, as the code has it.  For a frame whose 'Temperatura' (or
    'Humedad') column is not empty, the metric shows the cell of the last
    row, with one decimal and the unit, when that cell is a number; when
    it is a text, as a cell left blank is, the metric is not shown: the
    format raises a [ValueError]. *)
Theorem current_metrics_show_last_number (df : DataFrame) (init : list cell)
        (c : cell) :
  (getitem df "Temperatura" = Ok (Cells (init ++ [c])) ->
     (formattable c = true ->
        temperature_metric df
        = ([(Col 3, st_metric "🌡️ Temp. Actual" (format_f 1 (to_float c) ++ " °C"))],
           Ok tt))
     /\ (is_str c = true ->
          temperature_metric df
          = ([], Raise (Exception "ValueError"
                          "Unknown format code 'f' for object of type 'str'"))))
  /\ (getitem df "Humedad" = Ok (Cells (init ++ [c])) ->
        (formattable c = true ->
           humidity_metric df
           = ([(Col 4, st_metric "💧 Humedad Actual" (format_f 1 (to_float c) ++ " %"))],
              Ok tt))
        /\ (is_str c = true ->
             humidity_metric df
             = ([], Raise (Exception "ValueError"
                             "Unknown format code 'f' for object of type 'str'")))).
Proof.
  split; intros Hget; split; intros Hc.
  - now rewrite (temperature_metric_last _ _ _ Hget), (format_cell_formattable _ _ Hc).
  - now rewrite (temperature_metric_last _ _ _ Hget), (format_cell_str _ _ Hc).
  - now rewrite (humidity_metric_last _ _ _ Hget), (format_cell_formattable _ _ Hc).
  - now rewrite (humidity_metric_last _ _ _ Hget), (format_cell_str _ _ Hc).
Qed.

(** For 'Temperatura' = [25.5, 25.6] the metric shows 25.6, and for
    'Humedad' = [60.0, 59.8] it shows 59.8. *)
Lemma current_metrics_show_last_number_witness :
  getitem frame_ejemplo "Temperatura" = Ok (Cells ([CFloat 25.5] ++ [CFloat 25.6]))
  /\ getitem frame_ejemplo "Humedad" = Ok (Cells ([CFloat 60.0] ++ [CFloat 59.8]))
  /\ temperature_metric frame_ejemplo
     = ([(Col 3, st_metric "🌡️ Temp. Actual" "25.6 °C")], Ok tt)
  /\ humidity_metric frame_ejemplo
     = ([(Col 4, st_metric "💧 Humedad Actual" "59.8 %")], Ok tt).
Proof.
  split; [reflexivity |]. split; [reflexivity |]. split.
  - destruct (current_metrics_show_last_number frame_ejemplo [CFloat 25.5] (CFloat 25.6))
      as [Htemp _].
    destruct (Htemp eq_refl) as [Hshown _]. rewrite (Hshown eq_refl).
    vm_compute. reflexivity.
  - destruct (current_metrics_show_last_number frame_ejemplo [CFloat 60.0] (CFloat 59.8))
      as [_ Hhum].
    destruct (Hhum eq_refl) as [Hshown _]. rewrite (Hshown eq_refl).
    vm_compute. reflexivity.
Defined.

(* ================================================================== *)
(** ** Cells that are not numbers *)

Lemma column_such_getitem (f : column -> bool) (df : DataFrame) (name : string) :
  column_such f df name = true ->
  exists c, getitem df name = Ok c /\ f c = true.
Proof.
  unfold column_such, getitem.
  destruct (dict_get name (data df)) as [c |]; [| discriminate].
  intros H. now exists c.
Qed.

Lemma voltage_metric_raises_on_text (P : Pandas) (df : DataFrame) :
  column_such has_str df "Voltaje" = true ->
  exists cs,
    getitem df "Voltaje" = Ok (Cells cs)
    /\ voltage_metric P df = ([], Raise (Exception "TypeError" (mean_type_error P cs))).
Proof.
  intros H. apply column_such_getitem in H. destruct H as [c [Hget Hc]].
  unfold voltage_metric. rewrite (getitem_in_columns _ _ _ Hget), Hget.
  destruct c as [cs | ts]; [| discriminate].
  exists cs. split; [reflexivity |].
  cbn [bind Series_mean]. simpl in Hc. now rewrite Hc.
Qed.

Lemma last_is_str_split (c : column) :
  last_is_str c = true -> exists init s, c = Cells (init ++ [CStr s]).
Proof.
  destruct c as [cs | ts]; [| discriminate].
  destruct cs as [| c0 cs']; [discriminate |].
  destruct (@exists_last _ (c0 :: cs') ltac:(discriminate)) as [init [c Hc]].
  rewrite Hc. unfold last_is_str. rewrite last_last.
  destruct c as [n | x | s]; try discriminate.
  intros _. now exists init, s.
Qed.

Lemma temperature_metric_raises_on_text (df : DataFrame) :
  column_such last_is_str df "Temperatura" = true ->
  exists e, outcome (temperature_metric df) = Raise e.
Proof.
  intros H. apply column_such_getitem in H. destruct H as [c [Hget Hc]].
  apply last_is_str_split in Hc. destruct Hc as [init [s ->]].
  rewrite (temperature_metric_last df init (CStr s) Hget). simpl. eauto.
Qed.

Lemma humidity_metric_raises_on_text (df : DataFrame) :
  column_such last_is_str df "Humedad" = true ->
  exists e, outcome (humidity_metric df) = Raise e.
Proof.
  intros H. apply column_such_getitem in H. destruct H as [c [Hget Hc]].
  apply last_is_str_split in Hc. destruct Hc as [init [s ->]].
  rewrite (humidity_metric_last df init (CStr s) Hget). simpl. eauto.
Qed.

(** The metrics stop at the first of them that raises. *)
Lemma metrics_raise_on_text (P : Pandas) (df : DataFrame) :
  metrics_read_text df = true ->
  exists e, outcome (metrics P df) = Raise e.
Proof.
  unfold metrics_read_text, metrics. intros H.
  rewrite outcome_bind. cbn [outcome emit snd].
  rewrite outcome_bind.
  destruct (outcome (voltage_metric P df)) as [[] | e] eqn:Ev; [| eauto].
  rewrite outcome_bind.
  destruct (outcome (temperature_metric df)) as [[] | e] eqn:Et; [| eauto].
  apply orb_true_iff in H. destruct H as [H | H].
  - apply orb_true_iff in H. destruct H as [H | H].
    + destruct (voltage_metric_raises_on_text P df H) as [cs [_ Hv]].
      rewrite Hv in Ev. discriminate.
    + destruct (temperature_metric_raises_on_text df H) as [e He]. congruence.
  - now apply humidity_metric_raises_on_text.
Qed.

Lemma dashboard_raises_on_text (P : Pandas) (U : User) (df : DataFrame) :
  metrics_read_text df = true ->
  exists e, outcome (dashboard P U df) = Raise e.
Proof.
  intros H. destruct (metrics_raise_on_text P df H) as [e He].
  exists e. unfold dashboard.
  rewrite outcome_bind. cbn [outcome emit snd].
  now apply bind_raises.
Qed.

(** A frame whose metrics read a text has a row and a column. *)
Lemma text_frame_not_empty (records : list record) (ts : list (option Z)) :
  metrics_read_text (with_FechaHora records (Datetimes ts)) = true ->
  empty (with_FechaHora records (Datetimes ts)) = false.
Proof.
  intros H. unfold empty, with_FechaHora. cbn [index_len data].
  apply orb_false_iff. split.
  - destruct records as [| r records]; [| reflexivity].
    exfalso. revert H. cbv. discriminate.
  - pose proof (upsert_length "FechaHora" (Datetimes ts)
                  (data (DataFrame_of_records records))) as Hlen.
    destruct (List.length _); [lia | reflexivity].
Qed.

(** C5, as the code has it.  [load_data] converts no cell: a cell of a
    sensor column that is not a number is returned as the text that was
    fetched, and [load_data] raises only for the column it parses as
    instants.  The metrics then raise instead of showing a missing value
    when they read such a cell: one of the voltage column, or the last
    one of the temperature or of the humidity column. *)
Theorem text_cells_are_kept_and_raise (P : Pandas) (U : User) (R : Remote)
        (records : list record) :
  fetch R = Ok records ->
  (forall e, load_data_try P R = Raise e ->
     exists name,
       spec_timestamp_origin (keys_of records) = ParsedFrom name
       /\ to_datetime P (Cells (map (cell_of name) records)) = Raise e)
  /\ (forall df, load_data_try P R = Ok df ->
        (forall k, k <> "FechaHora" -> In k (keys_of records) ->
           getitem df k = Ok (Cells (map (cell_of k) records)))
        /\ (metrics_read_text df = true ->
              exists e, outcome (presenter P U df) = Raise e)).
Proof.
  intros Hfetch. unfold load_data_try. rewrite Hfetch. cbn [bind]. split.
  - intros e. rewrite normalize_by_origin.
    destruct (spec_timestamp_origin (keys_of records)) as [name |]; [| discriminate].
    intros H. exists name. split; [reflexivity |].
    destruct (to_datetime P (Cells (map (cell_of name) records))); [discriminate |].
    cbn [bind] in H. congruence.
  - intros df Hnorm. split.
    + intros k Hk Hin. now apply (normalize_keeps_columns P (datetime_now R)).
    + intros Htext. apply normalize_shape in Hnorm. destruct Hnorm as [ts [-> _]].
      unfold presenter. rewrite (text_frame_not_empty _ _ Htext). cbn [negb].
      now apply dashboard_raises_on_text.
Qed.

Lemma text_cells_are_kept_and_raise_witness :
  fetch (remote_serving records_text fetch_time) = Ok records_text
  /\ exists df,
       load_data_try pandas_iso (remote_serving records_text fetch_time) = Ok df
       /\ getitem df "Voltaje" = Ok (Cells (map (cell_of "Voltaje") records_text))
       /\ metrics_read_text df = true
       /\ exists e, outcome (presenter pandas_iso user_idle df) = Raise e.
Proof.
  split; [reflexivity |].
  destruct (text_cells_are_kept_and_raise pandas_iso user_idle
              (remote_serving records_text fetch_time) records_text eq_refl)
    as [_ H].
  eexists. split; [vm_compute; reflexivity |].
  match goal with
  | |- getitem ?df _ = _ /\ _ => destruct (H df) as [Hkept Hraise]
  end.
  - vm_compute. reflexivity.
  - split; [apply Hkept; [discriminate | simpl; auto] |].
    split; [reflexivity | apply Hraise; reflexivity].
Defined.

(** C5, as stated, fails: the text 'abc' in the voltage column is
    returned as it is, not as a missing value, and the voltage metric
    raises on it after the first two elements were rendered. *)
Lemma text_voltage_breaks_metrics :
  exists df,
    load_data pandas_iso (remote_serving records_text fetch_time) = ([], Ok df)
    /\ getitem df "Voltaje" = Ok (Cells [CFloat 3.3; CStr "abc"])
    /\ presenter pandas_iso user_idle df
       = ([(Main, st_success "✅ Datos cargados correctamente: 2 registros");
           (Col 1, st_metric "📊 Total Registros" "2")],
          Raise (Exception "TypeError"
                   "unsupported operand type(s) for +: 'float' and 'str'")).
Proof.
  eexists. split; [vm_compute; reflexivity |].
  split; vm_compute; reflexivity.
Qed.

(** The same for a blank last cell of the temperature column. *)
Example blank_temperature_breaks_metrics :
  outcome (metrics pandas_iso
             (mkDataFrame 2
                [("FechaHora", Datetimes [Some (seconds 1704103200); Some (seconds 1704103210)]);
                 ("Temperatura", Cells [CFloat 25.5; CStr ""])]))
  = Raise (Exception "ValueError" "Unknown format code 'f' for object of type 'str'").
Proof. vm_compute. reflexivity. Qed.

(* ================================================================== *)
(** ** A sheet without rows *)

Lemma normalize_no_rows (P : Pandas) (now : Z) :
  normalize P now [] = Ok (mkDataFrame 0 [("FechaHora", Datetimes [])]).
Proof. reflexivity. Qed.

(** What tells the two apart is rendered by [load_data] itself: the
    diagnostic, which a sheet without rows does not produce.  The frames
    differ too, by the 'FechaHora' column of the first, which the
    presenter does not look at. *)
Example empty_sheet_run :
  script pandas_iso (remote_serving [] fetch_time) user_idle
  = ([(Main, st_set_page_config "Dashboard Sensores ESP32" "🔌" "wide");
      (Main, st_title "🔌 Dashboard de Monitoreo - Proyecto Electrónica");
      (Main, st_error "❌ No se pudieron cargar los datos");
      (Expander "🔧 Solución de problemas" true,
       st_dataframe (mkDataFrame 2 (map (fun kc => (fst kc, Cells (snd kc))) ejemplo_data)));
      (Sidebar, st_markdown "---");
      (Sidebar, st_info "Los datos se actualizan automáticamente cada 5 minutos");
      (Sidebar, st_button "🔄 Actualizar Ahora");
      (Sidebar, st_markdown "---");
      (Sidebar, st_write "📊 Datos cargados: 0 registros")],
     Ok tt).
Proof. vm_compute. reflexivity. Qed.

Example unreachable_sheet_run :
  script pandas_iso (remote_unreachable fetch_time) user_idle
  = ([(Main, st_set_page_config "Dashboard Sensores ESP32" "🔌" "wide");
      (Main, st_title "🔌 Dashboard de Monitoreo - Proyecto Electrónica");
      (Main, st_error "Error cargando datos: 503: The service is currently unavailable.");
      (Main, st_error "❌ No se pudieron cargar los datos");
      (Expander "🔧 Solución de problemas" true,
       st_dataframe (mkDataFrame 2 (map (fun kc => (fst kc, Cells (snd kc))) ejemplo_data)));
      (Sidebar, st_markdown "---");
      (Sidebar, st_info "Los datos se actualizan automáticamente cada 5 minutos");
      (Sidebar, st_button "🔄 Actualizar Ahora");
      (Sidebar, st_markdown "---");
      (Sidebar, st_write "📊 Datos cargados: 0 registros")],
     Ok tt).
Proof. vm_compute. reflexivity. Qed.

Example ejemplo_run :
  rendered (script pandas_iso (remote_serving records_ejemplo fetch_time) user_idle)
  = [(Main, st_set_page_config "Dashboard Sensores ESP32" "🔌" "wide");
     (Main, st_title "🔌 Dashboard de Monitoreo - Proyecto Electrónica");
     (Main, st_success "✅ Datos cargados correctamente: 2 registros");
     (Col 1, st_metric "📊 Total Registros" "2");
     (Col 2, st_metric "⚡ Voltaje Promedio" "3.25 V");
     (Col 3, st_metric "🌡️ Temp. Actual" "25.6 °C");
     (Col 4, st_metric "💧 Humedad Actual" "59.8 %");
     (Sidebar, st_markdown "### 🔍 Columnas disponibles:");
     (Sidebar, st_write "- `FechaHora`");
     (Sidebar, st_write "- `Voltaje`");
     (Sidebar, st_write "- `Temperatura`");
     (Sidebar, st_write "- `Humedad`");
     (Main, st_subheader "📈 Evolución Temporal");
     (Main, st_multiselect "Selecciona variables para graficar:"
              ["Voltaje"; "Temperatura"; "Humedad"] ["Voltaje"; "Temperatura"]);
     (Main, st_plotly_chart
              (mkFigure
                 [mkScatter (Datetimes [Some (seconds 1704103200); Some (seconds 1704103210)])
                    (Cells [CFloat 3.3; CFloat 3.2]) "Voltaje" "#1f77b4";
                  mkScatter (Datetimes [Some (seconds 1704103200); Some (seconds 1704103210)])
                    (Cells [CFloat 25.5; CFloat 25.6]) "Temperatura" "#ff7f0e"]
                 chart_layout));
     (Main, st_subheader "📋 Datos Recientes");
     (Expander "🔍 Ver estructura de datos" false, st_write "**Tipos de datos:**");
     (Expander "🔍 Ver estructura de datos" false,
      st_write_dtypes [("FechaHora", datetime64); ("Voltaje", float64);
                       ("Temperatura", float64); ("Humedad", float64)]);
     (Expander "🔍 Ver estructura de datos" false, st_write "**Primeras filas:**");
     (Expander "🔍 Ver estructura de datos" false, st_dataframe frame_ejemplo);
     (Main, st_dataframe frame_ejemplo);
     (Sidebar, st_markdown "---");
     (Sidebar, st_info "Los datos se actualizan automáticamente cada 5 minutos");
     (Sidebar, st_button "🔄 Actualizar Ahora");
     (Sidebar, st_markdown "---");
     (Sidebar, st_write "📊 Datos cargados: 2 registros")].
Proof. vm_compute. reflexivity. Qed.

(** A run whose [load_data] rendered [evs] and returned a frame without
    rows: the title, [evs], the troubleshooting view and the footer. *)
Lemma script_without_rows (P : Pandas) (R : Remote) (U : User)
      (evs : list event) (df : DataFrame) :
  load_data P R = (evs, Ok df) ->
  index_len df = 0%nat ->
  script P R U
  = ([(Main, st_set_page_config "Dashboard Sensores ESP32" "🔌" "wide");
      (Main, st_title "🔌 Dashboard de Monitoreo - Proyecto Electrónica")]
     ++ evs
     ++ [(Main, st_error "❌ No se pudieron cargar los datos");
         (Expander "🔧 Solución de problemas" true,
          st_dataframe
            (mkDataFrame 2 (map (fun kc => (fst kc, Cells (snd kc))) ejemplo_data)))]
     ++ rendered (footer U DataFrame_empty),
     outcome (footer U DataFrame_empty))%list.
Proof.
  intros Hload Hlen.
  assert (Hempty : empty df = true) by (unfold empty; now rewrite Hlen).
  assert (Hfooter : footer U df = footer U DataFrame_empty).
  { unfold footer, len. now rewrite Hlen. }
  assert (Hrest : presenter P U df ;;; footer U df
                  = ([(Main, st_error "❌ No se pudieron cargar los datos");
                      (Expander "🔧 Solución de problemas" true,
                       st_dataframe
                         (mkDataFrame 2
                            (map (fun kc => (fst kc, Cells (snd kc))) ejemplo_data)))]
                     ++ rendered (footer U DataFrame_empty),
                     outcome (footer U DataFrame_empty))%list).
  { unfold presenter. rewrite Hempty, Hfooter, fallback_renders. cbn [negb].
    now destruct (footer U DataFrame_empty) as [fevs fr]. }
  unfold script. rewrite Hload. unfold emit. cbn [ui_bind]. rewrite Hrest.
  reflexivity.
Qed.

(** C9, as stated, fails at the interface of the loader: for a sheet
    without rows [load_data] renders nothing and returns a frame with the
    column 'FechaHora'; for a sheet that cannot be opened it renders the
    diagnostic and returns a frame without columns. *)
Lemma empty_sheet_differs_from_failure :
  load_data pandas_iso (remote_serving [] fetch_time)
  = ([], Ok (mkDataFrame 0 [("FechaHora", Datetimes [])]))
  /\ load_data pandas_iso (remote_unreachable fetch_time)
     = ([(Main, st_error "Error cargando datos: 503: The service is currently unavailable.")],
        Ok DataFrame_empty)
  /\ columns (mkDataFrame 0 [("FechaHora", Datetimes [])]) = ["FechaHora"]
  /\ columns DataFrame_empty = []
  /\ List.length (rendered (script pandas_iso (remote_serving [] fetch_time) user_idle))
     = 9%nat
  /\ List.length (rendered (script pandas_iso (remote_unreachable fetch_time) user_idle))
     = 10%nat.
Proof. repeat split; vm_compute; reflexivity. Qed.

(** C9, as the code has it.  For a sheet that is reached and has no data
    row, [load_data] renders nothing and returns a frame without rows,
    whose only column is 'FechaHora'; on a failure it renders the
    diagnostic and returns the frame without columns.  Both frames are
    empty, so the presenter renders the troubleshooting view for both and
    the footer counts 0 records for both: the two runs differ by the
    diagnostic alone, which the failure shows under the title. *)
Theorem empty_sheet_and_failure (P : Pandas) (U : User) (R R' : Remote) (e : exn) :
  fetch R = Ok [] ->
  load_failure P R' e ->
  load_data P R = ([], Ok (mkDataFrame 0 [("FechaHora", Datetimes [])]))
  /\ load_data P R'
     = ([(Main, st_error ("Error cargando datos: " ++ str_exn e))], Ok DataFrame_empty)
  /\ empty (mkDataFrame 0 [("FechaHora", Datetimes [])]) = true
  /\ empty DataFrame_empty = true
  /\ presenter P U (mkDataFrame 0 [("FechaHora", Datetimes [])])
     = ([(Main, st_error "❌ No se pudieron cargar los datos");
         (Expander "🔧 Solución de problemas" true,
          st_dataframe
            (mkDataFrame 2 (map (fun kc => (fst kc, Cells (snd kc))) ejemplo_data)))],
        Ok tt)
  /\ presenter P U DataFrame_empty
     = presenter P U (mkDataFrame 0 [("FechaHora", Datetimes [])])
  /\ exists rest out,
       script P R U
       = ((Main, st_set_page_config "Dashboard Sensores ESP32" "🔌" "wide")
          :: (Main, st_title "🔌 Dashboard de Monitoreo - Proyecto Electrónica")
          :: (Main, st_error "❌ No se pudieron cargar los datos")
          :: (Expander "🔧 Solución de problemas" true,
              st_dataframe
                (mkDataFrame 2 (map (fun kc => (fst kc, Cells (snd kc))) ejemplo_data)))
          :: rest, out)
       /\ script P R' U
          = ((Main, st_set_page_config "Dashboard Sensores ESP32" "🔌" "wide")
             :: (Main, st_title "🔌 Dashboard de Monitoreo - Proyecto Electrónica")
             :: (Main, st_error ("Error cargando datos: " ++ str_exn e))
             :: (Main, st_error "❌ No se pudieron cargar los datos")
             :: (Expander "🔧 Solución de problemas" true,
                 st_dataframe
                   (mkDataFrame 2 (map (fun kc => (fst kc, Cells (snd kc))) ejemplo_data)))
             :: rest, out).
Proof.
  intros Hfetch Hfail.
  assert (H : load_data P R = ([], Ok (mkDataFrame 0 [("FechaHora", Datetimes [])]))).
  { apply load_data_returns. unfold load_data_try. rewrite Hfetch.
    apply normalize_no_rows. }
  assert (H' : load_data P R'
               = ([(Main, st_error ("Error cargando datos: " ++ str_exn e))],
                  Ok DataFrame_empty)).
  { apply load_data_catches. now apply load_failure_iff. }
  split; [exact H |]. split; [exact H' |].
  split; [reflexivity |]. split; [reflexivity |].
  split; [unfold presenter; cbn [empty index_len Nat.eqb orb negb];
          apply fallback_renders |].
  split; [reflexivity |].
  exists (rendered (footer U DataFrame_empty)), (outcome (footer U DataFrame_empty)).
  split.
  - now rewrite (script_without_rows P R U _ _ H eq_refl).
  - now rewrite (script_without_rows P R' U _ _ H' eq_refl).
Qed.

(** A sheet without rows beside a sheet that cannot be opened. *)
Lemma empty_sheet_and_failure_witness :
  fetch (remote_serving [] fetch_time) = Ok []
  /\ load_failure pandas_iso (remote_unreachable fetch_time)
       (Exception "APIError" "503: The service is currently unavailable.")
  /\ rendered (load_data pandas_iso (remote_serving [] fetch_time)) = []
  /\ rendered (load_data pandas_iso (remote_unreachable fetch_time))
     = [(Main, st_error "Error cargando datos: 503: The service is currently unavailable.")]
  /\ presenter pandas_iso user_idle DataFrame_empty
     = presenter pandas_iso user_idle (mkDataFrame 0 [("FechaHora", Datetimes [])]).
Proof.
  assert (Hfail : load_failure pandas_iso (remote_unreachable fetch_time)
                    (Exception "APIError" "503: The service is currently unavailable.")).
  { apply (open_failure pandas_iso (remote_unreachable fetch_time) _ tt tt); reflexivity. }
  split; [reflexivity |]. split; [exact Hfail |].
  destruct (empty_sheet_and_failure pandas_iso user_idle
              (remote_serving [] fetch_time) (remote_unreachable fetch_time) _
              eq_refl Hfail)
    as [H1 [H2 [_ [_ [_ [H3 _]]]]]].
  split; [now rewrite H1 |]. split; [now rewrite H2 |]. exact H3.
Defined.

(* ================================================================== *)
(** ** The loaded frame: its shape *)

Lemma add_keys_NoDup (ks seen : list string) :
  NoDup seen -> NoDup (add_keys seen ks).
Proof.
  revert seen. induction ks as [| k ks IH]; intros seen H; simpl; [exact H |].
  destruct (existsb (String.eqb k) seen) eqn:E; [now apply IH |].
  apply IH. apply NoDup_app; [exact H | repeat constructor; intros [] |].
  intros k' Hin [<- | []].
  apply existsb_eqb_In in Hin. congruence.
Qed.

Lemma keys_of_NoDup (records : list record) : NoDup (keys_of records).
Proof.
  unfold keys_of.
  assert (H : forall seen, NoDup seen ->
              NoDup (fold_left (fun seen r => add_keys seen (map fst r)) records seen)).
  { induction records as [| r records IH]; intros seen Hs; simpl; [exact Hs |].
    apply IH. now apply add_keys_NoDup. }
  apply H. constructor.
Qed.

Lemma upsert_names_In (name k : string) (c : column) (d : list (string * column)) :
  In k (map fst (upsert name c d)) <-> k = name \/ In k (map fst d).
Proof.
  induction d as [| [k' c'] d IH]; simpl.
  - split; [intros [H | []]; auto | intros [H | []]; auto].
  - destruct (String.eqb name k') eqn:E; simpl.
    + apply String.eqb_eq in E. subst k'. split; [tauto |].
      intros [H | [H | H]]; auto.
    + rewrite IH. tauto.
Qed.

Lemma upsert_NoDup (name : string) (c : column) (d : list (string * column)) :
  NoDup (map fst d) -> NoDup (map fst (upsert name c d)).
Proof.
  induction d as [| [k c'] d IH]; simpl; intros H.
  - repeat constructor. intros [].
  - inversion H as [| k0 l Hk Hd]. subst.
    destruct (String.eqb name k) eqn:E; simpl.
    + apply String.eqb_eq in E. subst k. now constructor.
    + constructor; [| now apply IH].
      rewrite upsert_names_In. intros [-> | Hin]; [| contradiction].
      now rewrite String.eqb_refl in E.
Qed.

Lemma upsert_forallb (f : string * column -> bool) (name : string) (c : column)
      (d : list (string * column)) :
  f (name, c) = true -> forallb f d = true -> forallb f (upsert name c d) = true.
Proof.
  intros Hc. induction d as [| [k c'] d IH]; simpl; intros H.
  - now rewrite Hc.
  - apply andb_true_iff in H. destruct H as [H1 H2].
    destruct (String.eqb name k); simpl.
    + now rewrite Hc.
    + now rewrite H1, IH.
Qed.

Lemma records_frame_rectangular (records : list record) :
  rectangular (DataFrame_of_records records) = true.
Proof.
  unfold rectangular, DataFrame_of_records. cbn [data index_len].
  apply forallb_forall. intros [k c] Hin. apply in_map_iff in Hin.
  destruct Hin as [k' [Heq _]]. inversion Heq. subst.
  cbn [snd column_len]. rewrite length_map. apply Nat.eqb_refl.
Qed.

Lemma with_FechaHora_rectangular (records : list record) (ts : list (option Z)) :
  List.length ts = List.length records ->
  rectangular (with_FechaHora records (Datetimes ts)) = true.
Proof.
  intros Hlen. unfold rectangular, with_FechaHora. cbn [data index_len].
  apply upsert_forallb.
  - cbn [snd column_len]. rewrite Hlen. apply Nat.eqb_refl.
  - exact (records_frame_rectangular records).
Qed.

Lemma dict_get_Some_of_In {A : Type} (k : string) (d : list (string * A)) :
  In k (map fst d) -> exists v, dict_get k d = Some v.
Proof.
  induction d as [| [k' v'] d IH]; simpl; [intros [] |].
  intros H. destruct (String.eqb k k') eqn:E; [now exists v' |].
  destruct H as [H | H]; [| now apply IH].
  subst k'. now rewrite String.eqb_refl in E.
Qed.

Lemma records_frame_holds_cells (records : list record) (k : string) (c : column) :
  getitem (DataFrame_of_records records) k = Ok c ->
  c = Cells (map (cell_of k) records).
Proof.
  intros H. pose proof (getitem_in_columns _ _ _ H) as Hin.
  rewrite (getitem_of_records _ _ Hin) in H. now inversion H.
Qed.

(** What [load_data_try] returns is the frame of the fetched records with
    a column of instants. *)
Lemma load_data_try_shape (P : Pandas) (R : Remote) (df : DataFrame) :
  load_data_try P R = Ok df ->
  exists records ts,
    fetch R = Ok records
    /\ df = with_FechaHora records (Datetimes ts)
    /\ List.length ts = List.length records.
Proof.
  unfold load_data_try. destruct (fetch R) as [records | e]; cbn [bind];
    [| discriminate].
  intros H. apply normalize_shape in H. destruct H as [ts [Hdf Hlen]].
  now exists records, ts.
Qed.

(** X1.  Whatever [load_data] returns, after a success or a failure, is a
    proper frame: every column has one value per row, no two columns
    share a name, and the columns that hold instants are exactly those
    named 'FechaHora'. *)
Theorem load_data_frame_is_proper (P : Pandas) (R : Remote) (df : DataFrame) :
  outcome (load_data P R) = Ok df ->
  rectangular df = true
  /\ NoDup (columns df)
  /\ (forall k c, getitem df k = Ok c ->
        (dtype_of c = datetime64 <-> k = "FechaHora")).
Proof.
  intros Hload.
  destruct (load_data_try P R) as [df' | e] eqn:E.
  - rewrite (load_data_returns _ _ _ E) in Hload. inversion Hload. subst df'.
    destruct (load_data_try_shape _ _ _ E) as [records [ts [_ [-> Hlen]]]].
    split; [now apply with_FechaHora_rectangular |]. split.
    + unfold columns, with_FechaHora. cbn [data]. apply upsert_NoDup.
      fold (columns (DataFrame_of_records records)).
      rewrite columns_of_records. apply keys_of_NoDup.
    + intros k c Hget. destruct (String.eqb k "FechaHora") eqn:Ek.
      * apply String.eqb_eq in Ek. subst k.
        rewrite getitem_with_same in Hget. inversion Hget. subst c.
        split; reflexivity.
      * apply String.eqb_neq in Ek.
        rewrite getitem_with_other in Hget by assumption.
        apply records_frame_holds_cells in Hget. subst c. split; [| contradiction].
        unfold dtype_of. destruct (map (cell_of k) records); [discriminate |].
        repeat match goal with
               | |- context [if ?b then _ else _] => destruct b
               end; discriminate.
  - rewrite (load_data_catches _ _ _ E) in Hload. inversion Hload. subst df.
    split; [reflexivity |]. split; [constructor |].
    intros k c H. discriminate.
Qed.

Lemma load_data_frame_is_proper_witness :
  outcome (load_data pandas_iso (remote_serving records_ejemplo fetch_time))
  = Ok frame_ejemplo
  /\ rectangular frame_ejemplo = true
  /\ NoDup (columns frame_ejemplo).
Proof.
  assert (H : outcome (load_data pandas_iso (remote_serving records_ejemplo fetch_time))
              = Ok frame_ejemplo).
  { vm_compute. reflexivity. }
  split; [exact H |].
  destruct (load_data_frame_is_proper _ _ _ H) as [H1 [H2 _]].
  split; assumption.
Defined.

(* ================================================================== *)
(** ** The dashboard: the count, and when the metrics can be shown *)

Lemma rendered_emit_bind {B : Type} (c : container) (e : element) (k : ui B) :
  rendered (emit c e ;;; k) = (c, e) :: rendered k.
Proof. unfold ui_bind, emit. now destruct k. Qed.

Lemma outcome_emit_bind {B : Type} (c : container) (e : element) (k : ui B) :
  outcome (emit c e ;;; k) = outcome k.
Proof. unfold ui_bind, emit. now destruct k. Qed.

Lemma bind_returned {A B : Type} (a : A) (k : A -> ui B) :
  ui_bind ([], Ok a) k = k a.
Proof. unfold ui_bind. now destruct (k a). Qed.

Lemma with_FechaHora_not_empty (records : list record) (c : column) :
  (0 < List.length records)%nat -> empty (with_FechaHora records c) = false.
Proof.
  intros H. unfold empty, with_FechaHora. cbn [index_len data].
  pose proof (upsert_length "FechaHora" c (data (DataFrame_of_records records))) as Hc.
  destruct (List.length records); [lia |].
  destruct (List.length (upsert _ _ _)); [lia | reflexivity].
Qed.

(** X2.  After a successful load of at least one record, the run shows
    the number of fetched records twice at the top of the page: in the
    success line and in the first metric. *)
Theorem loaded_count_is_shown (P : Pandas) (R : Remote) (U : User)
        (records : list record) (df : DataFrame) :
  fetch R = Ok records ->
  load_data_try P R = Ok df ->
  (0 < List.length records)%nat ->
  exists rest,
    rendered (script P R U)
    = (Main, st_set_page_config "Dashboard Sensores ESP32" "🔌" "wide")
      :: (Main, st_title "🔌 Dashboard de Monitoreo - Proyecto Electrónica")
      :: (Main, st_success ("✅ Datos cargados correctamente: "
                            ++ str_nat (List.length records) ++ " registros"))
      :: (Col 1, st_metric "📊 Total Registros" (str_nat (List.length records)))
      :: rest.
Proof.
  intros Hfetch Hload Hlen.
  destruct (load_data_try_shape _ _ _ Hload) as [records' [ts [Hfetch' [-> _]]]].
  assert (records' = records) by congruence. subst records'.
  unfold script. rewrite !rendered_emit_bind.
  rewrite (load_data_returns _ _ _ Hload), bind_returned.
  unfold presenter. rewrite (with_FechaHora_not_empty _ _ Hlen). cbn [negb].
  assert (Hd : exists rest,
             rendered (dashboard P U (with_FechaHora records (Datetimes ts)))
             = (Main, st_success ("✅ Datos cargados correctamente: "
                                   ++ str_nat (List.length records) ++ " registros"))
               :: (Col 1, st_metric "📊 Total Registros" (str_nat (List.length records)))
               :: rest).
  { assert (Hm : exists rest,
               rendered (metrics P (with_FechaHora records (Datetimes ts)))
               = (Col 1, st_metric "📊 Total Registros" (str_nat (List.length records)))
                 :: rest).
    { unfold metrics. rewrite rendered_emit_bind. eexists. reflexivity. }
    destruct Hm as [rest Hm].
    unfold dashboard. rewrite rendered_emit_bind, rendered_bind, Hm.
    destruct (outcome _); eexists; reflexivity. }
  destruct Hd as [rest Hd]. rewrite rendered_bind, Hd.
  destruct (outcome _); eexists; reflexivity.
Qed.

Lemma loaded_count_is_shown_witness :
  fetch (remote_serving records_ejemplo fetch_time) = Ok records_ejemplo
  /\ load_data_try pandas_iso (remote_serving records_ejemplo fetch_time) = Ok frame_ejemplo
  /\ (0 < List.length records_ejemplo)%nat
  /\ exists rest,
       rendered (script pandas_iso (remote_serving records_ejemplo fetch_time) user_idle)
       = (Main, st_set_page_config "Dashboard Sensores ESP32" "🔌" "wide")
         :: (Main, st_title "🔌 Dashboard de Monitoreo - Proyecto Electrónica")
         :: (Main, st_success ("✅ Datos cargados correctamente: "
                               ++ str_nat (List.length records_ejemplo) ++ " registros"))
         :: (Col 1, st_metric "📊 Total Registros" (str_nat (List.length records_ejemplo)))
         :: rest.
Proof.
  assert (H : load_data_try pandas_iso (remote_serving records_ejemplo fetch_time)
              = Ok frame_ejemplo).
  { vm_compute. reflexivity. }
  split; [reflexivity |]. split; [exact H |]. split; [simpl; lia |].
  apply (loaded_count_is_shown pandas_iso (remote_serving records_ejemplo fetch_time)
           user_idle records_ejemplo frame_ejemplo eq_refl H).
  simpl. lia.
Defined.

Lemma in_columns_with_other (records : list record) (c : column) (k : string) :
  k <> "FechaHora" ->
  in_columns k (with_FechaHora records c) = existsb (String.eqb k) (keys_of records).
Proof.
  intros Hk. apply eq_true_iff_eq.
  rewrite in_columns_In, existsb_eqb_In.
  unfold columns, with_FechaHora. cbn [data]. rewrite upsert_names_In.
  fold (columns (DataFrame_of_records records)). rewrite columns_of_records.
  tauto.
Qed.

Lemma not_in_columns_dict_get (df : DataFrame) (k : string) :
  in_columns k df = false -> dict_get k (data df) = None.
Proof.
  intros H. destruct (dict_get k (data df)) as [c |] eqn:E; [| reflexivity].
  apply getitem_dict_get, getitem_in_columns in E. congruence.
Qed.

Lemma in_columns_dict_get (df : DataFrame) (k : string) :
  in_columns k df = true -> exists c, dict_get k (data df) = Some c.
Proof. intros H. apply in_columns_In in H. now apply dict_get_Some_of_In. Qed.

(** The sensor columns of a loaded frame that has rows hold cells, one
    per row. *)
Lemma loaded_sensor_column (records : list record) (ts : list (option Z))
      (k : string) (c : column) :
  (0 < List.length records)%nat ->
  k <> "FechaHora" ->
  dict_get k (data (with_FechaHora records (Datetimes ts))) = Some c ->
  exists init last_cell, c = Cells (init ++ [last_cell]).
Proof.
  intros Hlen Hk Hget. apply getitem_dict_get in Hget.
  rewrite getitem_with_other in Hget by assumption.
  apply records_frame_holds_cells in Hget. subst c.
  destruct (@exists_last _ (map (cell_of k) records)) as [init [c Hc]].
  - intros H. apply (f_equal (@List.length cell)) in H.
    rewrite length_map in H. simpl in H. lia.
  - rewrite Hc. now exists init, c.
Qed.

Lemma voltage_metric_outcome (P : Pandas) (df : DataFrame) :
  (forall c, dict_get "Voltaje" (data df) = Some c -> exists cs, c = Cells cs) ->
  (outcome (voltage_metric P df) = Ok tt <-> column_such has_str df "Voltaje" = false).
Proof.
  intros Hcells. unfold voltage_metric, column_such.
  destruct (in_columns "Voltaje" df) eqn:E.
  - destruct (in_columns_dict_get _ _ E) as [c Hc].
    destruct (Hcells c Hc) as [cs ->].
    unfold getitem. rewrite Hc. cbn [bind Series_mean has_str].
    destruct (existsb is_str cs); simpl; split; congruence.
  - rewrite (not_in_columns_dict_get _ _ E). simpl. tauto.
Qed.

Lemma last_unformattable_format (init : list cell) (c : cell) :
  last_unformattable (Cells (init ++ [c])) = false
  <-> exists v, format_cell 1 c = Ok v.
Proof.
  unfold last_unformattable. rewrite last_last, length_app. simpl.
  destruct c as [n | x | s]; simpl.
  - destruct (is_infinity (float_of_Z n)); split; eauto; try discriminate.
    intros [v Hv]. discriminate.
  - split; eauto.
  - replace (List.length init + 1 =? 0)%nat with false
      by (symmetry; apply Nat.eqb_neq; lia).
    simpl. split; [discriminate | intros [v Hv]; discriminate].
Qed.

Lemma temperature_metric_outcome (df : DataFrame) :
  (forall c, dict_get "Temperatura" (data df) = Some c ->
             exists init last_cell, c = Cells (init ++ [last_cell])) ->
  (outcome (temperature_metric df) = Ok tt
   <-> column_such last_unformattable df "Temperatura" = false).
Proof.
  intros Hcells. unfold column_such.
  destruct (in_columns "Temperatura" df) eqn:E.
  - destruct (in_columns_dict_get _ _ E) as [c Hc].
    destruct (Hcells c Hc) as [init [x ->]]. rewrite Hc.
    rewrite (temperature_metric_last df init x (proj2 (getitem_dict_get _ _ _) Hc)).
    rewrite last_unformattable_format.
    destruct (format_cell 1 x); simpl; split; eauto; try discriminate.
    intros [v Hv]. discriminate.
  - rewrite (not_in_columns_dict_get _ _ E).
    unfold temperature_metric. rewrite E. simpl. tauto.
Qed.

Lemma humidity_metric_outcome (df : DataFrame) :
  (forall c, dict_get "Humedad" (data df) = Some c ->
             exists init last_cell, c = Cells (init ++ [last_cell])) ->
  (outcome (humidity_metric df) = Ok tt
   <-> column_such last_unformattable df "Humedad" = false).
Proof.
  intros Hcells. unfold column_such.
  destruct (in_columns "Humedad" df) eqn:E.
  - destruct (in_columns_dict_get _ _ E) as [c Hc].
    destruct (Hcells c Hc) as [init [x ->]]. rewrite Hc.
    rewrite (humidity_metric_last df init x (proj2 (getitem_dict_get _ _ _) Hc)).
    rewrite last_unformattable_format.
    destruct (format_cell 1 x); simpl; split; eauto; try discriminate.
    intros [v Hv]. discriminate.
  - rewrite (not_in_columns_dict_get _ _ E).
    unfold humidity_metric. rewrite E. simpl. tauto.
Qed.

Lemma outcome_unit (r : result unit) : r = Ok tt \/ exists e, r = Raise e.
Proof. destruct r as [[] | e]; eauto. Qed.

(** When the metrics of a loaded frame with rows run through. *)
Lemma loaded_metrics_outcome (P : Pandas) (records : list record) (ts : list (option Z)) :
  (0 < List.length records)%nat ->
  (outcome (metrics P (with_FechaHora records (Datetimes ts))) = Ok tt
   <-> metrics_fail (with_FechaHora records (Datetimes ts)) = false).
Proof.
  intros Hlen. set (df := with_FechaHora records (Datetimes ts)).
  assert (Hv := voltage_metric_outcome P df).
  assert (Ht := temperature_metric_outcome df).
  assert (Hh := humidity_metric_outcome df).
  assert (Hcv : forall c, dict_get "Voltaje" (data df) = Some c -> exists cs, c = Cells cs).
  { intros c Hc. destruct (loaded_sensor_column records ts "Voltaje" c Hlen) as [i [x ->]];
      [discriminate | exact Hc | eauto]. }
  specialize (Hv Hcv).
  specialize (Ht (fun c Hc => loaded_sensor_column records ts "Temperatura" c Hlen
                                ltac:(discriminate) Hc)).
  specialize (Hh (fun c Hc => loaded_sensor_column records ts "Humedad" c Hlen
                                ltac:(discriminate) Hc)).
  unfold metrics, metrics_fail.
  rewrite outcome_emit_bind, !outcome_bind.
  destruct (outcome_unit (outcome (voltage_metric P df))) as [Ev | [e Ev]]; rewrite Ev.
  - rewrite (proj1 Hv Ev). cbn [orb].
    destruct (outcome_unit (outcome (temperature_metric df))) as [Et | [e Et]]; rewrite Et.
    + rewrite (proj1 Ht Et). cbn [orb]. exact Hh.
    + split; [discriminate |]. intros H. apply orb_false_iff in H.
      destruct H as [H _]. apply Ht in H. congruence.
  - split; [discriminate |]. intros H. apply orb_false_iff in H.
    destruct H as [H _]. apply orb_false_iff in H. destruct H as [H _].
    apply Hv in H. congruence.
Qed.

(** X3.  For a loaded frame with rows, the integers of the sheet being
    within 64 bits, the four metrics are all shown exactly when the
    voltage column holds no text and the last cells of the temperature
    and of the humidity column have a format; otherwise they raise. *)
Theorem metrics_succeed_iff (P : Pandas) (R : Remote) (records : list record)
        (df : DataFrame) :
  fetch R = Ok records ->
  int64_records records = true ->
  load_data_try P R = Ok df ->
  empty df = false ->
  (outcome (metrics P df) = Ok tt <-> metrics_fail df = false)
  /\ (metrics_fail df = true -> exists e, outcome (metrics P df) = Raise e).
Proof.
  intros Hfetch _ Hload Hempty.
  destruct (load_data_try_shape _ _ _ Hload) as [records' [ts [_ [-> _]]]].
  assert (Hiff : outcome (metrics P (with_FechaHora records' (Datetimes ts))) = Ok tt
                 <-> metrics_fail (with_FechaHora records' (Datetimes ts)) = false).
  { apply loaded_metrics_outcome.
    destruct records'; [discriminate | simpl; lia]. }
  split; [exact Hiff |].
  intros Hfail.
  destruct (outcome_unit (outcome (metrics P (with_FechaHora records' (Datetimes ts)))))
    as [Hok | Hraise]; [| exact Hraise].
  apply Hiff in Hok. congruence.
Qed.

Lemma metrics_succeed_iff_witness :
  fetch (remote_serving records_ejemplo fetch_time) = Ok records_ejemplo
  /\ int64_records records_ejemplo = true
  /\ load_data_try pandas_iso (remote_serving records_ejemplo fetch_time) = Ok frame_ejemplo
  /\ empty frame_ejemplo = false
  /\ metrics_fail frame_ejemplo = false
  /\ outcome (metrics pandas_iso frame_ejemplo) = Ok tt.
Proof.
  assert (H : load_data_try pandas_iso (remote_serving records_ejemplo fetch_time)
              = Ok frame_ejemplo).
  { vm_compute. reflexivity. }
  split; [reflexivity |]. split; [reflexivity |].
  split; [exact H |]. split; [reflexivity |]. split; [reflexivity |].
  destruct (metrics_succeed_iff pandas_iso (remote_serving records_ejemplo fetch_time)
              records_ejemplo frame_ejemplo eq_refl eq_refl H eq_refl)
    as [Hiff _].
  apply Hiff. reflexivity.
Defined.

(** X4.  When the fetched records name none of 'Voltaje', 'Temperatura'
    and 'Humedad', the metrics are the count of the records and three
    times "N/A", and nothing raises. *)
Theorem missing_sensors_show_NA (P : Pandas) (R : Remote)
        (records : list record) (df : DataFrame) :
  fetch R = Ok records ->
  load_data_try P R = Ok df ->
  ~ In "Voltaje" (keys_of records) ->
  ~ In "Temperatura" (keys_of records) ->
  ~ In "Humedad" (keys_of records) ->
  metrics P df
  = ([(Col 1, st_metric "📊 Total Registros" (str_nat (List.length records)));
      (Col 2, st_metric "⚡ Voltaje" "N/A");
      (Col 3, st_metric "🌡️ Temperatura" "N/A");
      (Col 4, st_metric "💧 Humedad" "N/A")], Ok tt).
Proof.
  intros Hfetch Hload Hv Ht Hh.
  destruct (load_data_try_shape _ _ _ Hload) as [records' [ts [Hfetch' [-> _]]]].
  assert (records' = records) by congruence. subst records'.
  assert (Habsent : forall k, k <> "FechaHora" -> ~ In k (keys_of records) ->
                    in_columns k (with_FechaHora records (Datetimes ts)) = false).
  { intros k Hk Hin. rewrite in_columns_with_other by assumption.
    destruct (existsb (String.eqb k) (keys_of records)) eqn:E; [| reflexivity].
    now apply existsb_eqb_In in E. }
  unfold metrics, voltage_metric, temperature_metric, humidity_metric.
  rewrite !Habsent by (assumption || discriminate).
  reflexivity.
Qed.

Lemma missing_sensors_show_NA_witness :
  fetch (remote_serving records_current_only fetch_time) = Ok records_current_only
  /\ ~ In "Voltaje" (keys_of records_current_only)
  /\ ~ In "Temperatura" (keys_of records_current_only)
  /\ ~ In "Humedad" (keys_of records_current_only)
  /\ exists df,
       load_data_try pandas_iso (remote_serving records_current_only fetch_time) = Ok df
       /\ metrics pandas_iso df
          = ([(Col 1, st_metric "📊 Total Registros" "2");
              (Col 2, st_metric "⚡ Voltaje" "N/A");
              (Col 3, st_metric "🌡️ Temperatura" "N/A");
              (Col 4, st_metric "💧 Humedad" "N/A")], Ok tt).
Proof.
  assert (Hn : forall k, k <> "FechaHora" -> k <> "CorrienteINA" ->
               ~ In k (keys_of records_current_only)).
  { intros k H1 H2. simpl. intros [H | [H | H]]; auto. }
  split; [reflexivity |].
  split; [apply Hn; discriminate |].
  split; [apply Hn; discriminate |].
  split; [apply Hn; discriminate |].
  eexists. split; [vm_compute; reflexivity |].
  apply (missing_sensors_show_NA pandas_iso
           (remote_serving records_current_only fetch_time) records_current_only);
    [reflexivity | vm_compute; reflexivity | apply Hn; discriminate
     | apply Hn; discriminate | apply Hn; discriminate].
Defined.

(* ================================================================== *)
(** ** The chart *)

Lemma available_columns_filter (df : DataFrame) (cols : list string) :
  incl cols (columns df) ->
  available_columns df cols = Ok (filter (chartable df) cols).
Proof.
  induction cols as [| col cols IH]; intros Hincl; [reflexivity |].
  assert (Hcol : In col (columns df)) by (apply Hincl; now left).
  assert (Hrest : incl cols (columns df)).
  { intros k Hk. apply Hincl. now right. }
  specialize (IH Hrest). cbn [available_columns filter]. unfold chartable at 1.
  destruct (dict_get_Some_of_In col (data df) Hcol) as [c Hc].
  destruct (String.eqb col "FechaHora"); cbn [negb andb]; [exact IH |].
  unfold getitem. rewrite Hc, IH. cbn [bind].
  now destruct (dtype_eqb (dtype_of c) float64 || dtype_eqb (dtype_of c) int64).
Qed.

Lemma add_traces_spec (df : DataFrame) (xs : column) (selected_columns : list string) :
  getitem df "FechaHora" = Ok xs ->
  incl selected_columns (columns df) ->
  forall k, exists ts,
    add_traces df k selected_columns = Ok ts
    /\ List.length ts = List.length selected_columns
    /\ forall i col, nth_error selected_columns i = Some col ->
         exists ys,
           getitem df col = Ok ys
           /\ nth_error ts i
              = Some (mkScatter xs ys col (nth ((k + i) mod 6) colors "")).
Proof.
  intros Hx. induction selected_columns as [| col rest IH]; intros Hincl k.
  - exists []. split; [reflexivity |]. split; [reflexivity |].
    intros [| i] c H; discriminate.
  - assert (Hcol : In col (columns df)) by (apply Hincl; now left).
    assert (Hrest : incl rest (columns df)).
    { intros c Hc. apply Hincl. now right. }
    destruct (dict_get_Some_of_In col (data df) Hcol) as [ys Hys].
    apply getitem_dict_get in Hys.
    destruct (IH Hrest (S k)) as [ts [Hts [Hlen Hnth]]].
    exists (mkScatter xs ys col (nth (k mod 6) colors "") :: ts).
    split; [| split].
    + cbn [add_traces]. rewrite Hx, Hys. cbn [bind]. rewrite Hts. reflexivity.
    + simpl. now rewrite Hlen.
    + intros [| i] c Hc; simpl in Hc.
      * inversion Hc. subst c. exists ys. split; [exact Hys |].
        simpl. now rewrite Nat.add_0_r.
      * destruct (Hnth i c Hc) as [ys' [Hys' Hi]]. exists ys'.
        split; [exact Hys' |]. simpl. rewrite Hi.
        now replace (k + S i)%nat with (S k + i)%nat by lia.
Qed.

Lemma firstn_incl {A : Type} (n : nat) (l : list A) : incl (firstn n l) l.
Proof.
  revert l. induction n as [| n IH]; intros [| a l] x H; simpl in H; try contradiction.
  destruct H as [-> | H]; [now left | right; now apply IH].
Qed.

Lemma chartable_in_columns (df : DataFrame) :
  incl (filter (chartable df) (columns df)) (columns df).
Proof. intros col H. now apply filter_In in H. Qed.

Lemma dict_get_Some_In {A : Type} (k : string) (d : list (string * A)) (v : A) :
  dict_get k d = Some v -> In (k, v) d.
Proof.
  induction d as [| [k' v'] d IH]; simpl; [discriminate |].
  destruct (String.eqb k k') eqn:E.
  - intros H. inversion H. subst v'. apply String.eqb_eq in E. subst k'. now left.
  - intros H. right. now apply IH.
Qed.

Lemma int64_records_cells (records : list record) (k : string) :
  int64_records records = true ->
  forallb fits_int64 (map (cell_of k) records) = true.
Proof.
  intros H. apply forallb_forall. intros c Hc. apply in_map_iff in Hc.
  destruct Hc as [r [<- Hr]]. unfold int64_records in H.
  rewrite forallb_forall in H. specialize (H r Hr). unfold cell_of.
  destruct (dict_get k r) as [c |] eqn:E; [| reflexivity].
  apply dict_get_Some_In in E. rewrite forallb_forall in H. apply (H (k, c) E).
Qed.

Lemma fits_int64_bounds (cs : list cell) :
  forallb fits_int64 cs = true ->
  existsb beyond_64_bits cs = false /\ existsb above_int64 cs = false.
Proof.
  induction cs as [| c cs IH]; simpl; [now split |].
  intros H. apply andb_true_iff in H. destruct H as [Hc Hcs].
  destruct (IH Hcs) as [-> ->]. rewrite !orb_false_r.
  destruct c as [n | x | s]; simpl; [| now split | now split].
  simpl in Hc. apply andb_true_iff in Hc. destruct Hc as [Hlo Hhi].
  apply Z.leb_le in Hlo. apply Z.ltb_lt in Hhi.
  split.
  - apply orb_false_iff. split; [apply Z.ltb_ge | apply Z.leb_gt]; lia.
  - apply Z.leb_gt. lia.
Qed.

Lemma forallb_is_number (cs : list cell) :
  forallb is_number cs = negb (existsb is_str cs).
Proof.
  induction cs as [| c cs IH]; simpl; [reflexivity |].
  rewrite IH. unfold is_number. now destruct (is_str c).
Qed.

(** With integers within 64 bits, a column that is not empty has the
    dtype [float64] or [int64] exactly when it holds no text. *)
Lemma fits_int64_dtype (cs : list cell) :
  cs <> [] ->
  forallb fits_int64 cs = true ->
  dtype_eqb (dtype_of (Cells cs)) float64 || dtype_eqb (dtype_of (Cells cs)) int64
  = forallb is_number cs.
Proof.
  intros Hne Hfit. destruct (fits_int64_bounds _ Hfit) as [Hb Ha].
  rewrite forallb_is_number. unfold dtype_of.
  destruct cs as [| c cs]; [contradiction |].
  rewrite Hb, Ha. cbn [orb andb].
  destruct (existsb is_str (c :: cs)); [reflexivity |].
  destruct (existsb is_float (c :: cs)); reflexivity.
Qed.

Lemma forallb_map_cells (f : cell -> bool) (k : string) (records : list record) :
  forallb f (map (cell_of k) records) = forallb (fun r => f (cell_of k r)) records.
Proof. induction records as [| r records IH]; simpl; [reflexivity | now rewrite IH]. Qed.

(** X5.  For a loaded frame with rows, the integers of the sheet being
    within 64 bits, the columns offered for the chart are computed
    without error: they are, in the order of the sheet, the names other
    than 'FechaHora' under which every fetched cell is a number.  The
    instants and the columns that hold a text are never offered. *)
Theorem available_columns_are_numeric (P : Pandas) (R : Remote)
        (records : list record) (df : DataFrame) :
  fetch R = Ok records ->
  int64_records records = true ->
  records <> [] ->
  load_data_try P R = Ok df ->
  exists offered,
    available_columns df (columns df) = Ok offered
    /\ offered
       = filter (fun k => negb (String.eqb k "FechaHora")
                          && forallb (fun r => is_number (cell_of k r)) records)
           (keys_of records)
    /\ ~ In "FechaHora" offered
    /\ forall col,
         In col offered
         <-> In col (keys_of records)
             /\ col <> "FechaHora"
             /\ forall r, In r records -> is_str (cell_of col r) = false.
Proof.
  intros Hfetch Hint Hne Hload.
  destruct (load_data_try_shape _ _ _ Hload) as [records' [ts [Hfetch' [-> _]]]].
  assert (records' = records) by congruence. subst records'.
  set (df := with_FechaHora records (Datetimes ts)).
  set (g := fun k => negb (String.eqb k "FechaHora")
                     && forallb (fun r => is_number (cell_of k r)) records).
  assert (Hkeys : forall k, In k (keys_of records) -> chartable df k = g k).
  { intros k Hk. unfold chartable, g.
    destruct (String.eqb k "FechaHora") eqn:E; [reflexivity |].
    apply String.eqb_neq in E. cbn [negb andb].
    assert (Hget : getitem df k = Ok (Cells (map (cell_of k) records))).
    { unfold df. rewrite getitem_with_other by assumption.
      apply getitem_of_records, in_columns_In. now rewrite columns_of_records. }
    apply getitem_dict_get in Hget. rewrite Hget.
    rewrite fits_int64_dtype.
    - apply forallb_map_cells.
    - destruct records; [contradiction | discriminate].
    - now apply int64_records_cells. }
  assert (Hcols : filter (chartable df) (columns df) = filter g (keys_of records)).
  { unfold columns, df, with_FechaHora. cbn [data]. rewrite upsert_names.
    fold (columns (DataFrame_of_records records)). rewrite columns_of_records.
    fold df.
    destruct (existsb (String.eqb "FechaHora") (keys_of records)).
    - now apply filter_ext_in.
    - rewrite filter_app. cbn [filter]. unfold chartable at 2.
      rewrite String.eqb_refl. cbn [negb andb]. rewrite app_nil_r.
      now apply filter_ext_in. }
  exists (filter g (keys_of records)).
  split; [| split; [reflexivity | split]].
  - rewrite <- Hcols. apply available_columns_filter, incl_refl.
  - intros H. apply filter_In in H. destruct H as [_ H]. unfold g in H.
    rewrite String.eqb_refl in H. discriminate.
  - intros col. rewrite filter_In. unfold g. rewrite andb_true_iff, negb_true_iff.
    rewrite String.eqb_neq, forallb_forall.
    split; intros [Hin [Hcol Hcells]]; (split; [exact Hin | split; [exact Hcol |]]);
      intros r Hr; specialize (Hcells r Hr); unfold is_number in *;
      now destruct (is_str (cell_of col r)).
Qed.

(** The rows of [records_timestamp]: 'Voltaje' is offered; 'Timestamp',
    which holds texts, and 'FechaHora' are not. *)
Lemma available_columns_are_numeric_witness :
  fetch (remote_serving records_timestamp fetch_time) = Ok records_timestamp
  /\ int64_records records_timestamp = true
  /\ exists df,
       load_data_try pandas_iso (remote_serving records_timestamp fetch_time) = Ok df
       /\ columns df = ["Timestamp"; "Voltaje"; "FechaHora"]
       /\ available_columns df (columns df) = Ok ["Voltaje"].
Proof.
  split; [reflexivity |]. split; [reflexivity |].
  assert (H : load_data_try pandas_iso (remote_serving records_timestamp fetch_time)
              = Ok (with_FechaHora records_timestamp
                      (Datetimes [Some (seconds 1704103200); Some (seconds 1704103210)]))).
  { vm_compute. reflexivity. }
  eexists. split; [exact H |]. split; [reflexivity |].
  destruct (available_columns_are_numeric pandas_iso
              (remote_serving records_timestamp fetch_time) records_timestamp _
              eq_refl eq_refl ltac:(discriminate) H)
    as [offered [Hoffered [-> _]]].
  exact Hoffered.
Defined.

(** X6.  When the user picks among the columns offered, and picks at
    least one, the chart is drawn without error after the subheader and
    the selection box (whose default is the first two columns offered):
    it has one trace per picked column, in the order picked, named by
    the column, with the instants as abscissa, the column as ordinate,
    and the colours of the palette taken in turn, again from the first
    after the sixth. *)
Theorem chart_draws_selection (U : User) (df : DataFrame) (xs : column) :
  selects_among_options U ->
  getitem df "FechaHora" = Ok xs ->
  multiselect U "Selecciona variables para graficar:"
    (filter (chartable df) (columns df))
    (firstn 2 (filter (chartable df) (columns df))) <> [] ->
  exists ts,
    chart U df
    = ([(Main, st_subheader "📈 Evolución Temporal");
        (Main, st_multiselect "Selecciona variables para graficar:"
                 (filter (chartable df) (columns df))
                 (firstn 2 (filter (chartable df) (columns df))));
        (Main, st_plotly_chart (mkFigure ts chart_layout))], Ok tt)
    /\ List.length ts
       = List.length (multiselect U "Selecciona variables para graficar:"
                        (filter (chartable df) (columns df))
                        (firstn 2 (filter (chartable df) (columns df))))
    /\ forall i col,
         nth_error (multiselect U "Selecciona variables para graficar:"
                      (filter (chartable df) (columns df))
                      (firstn 2 (filter (chartable df) (columns df)))) i = Some col ->
         exists ys,
           getitem df col = Ok ys
           /\ nth_error ts i = Some (mkScatter xs ys col (nth (i mod 6) colors "")).
Proof.
  intros Huser Hx.
  remember (filter (chartable df) (columns df)) as available eqn:Hav.
  assert (Hdef : (if (2 <=? List.length available)%nat
                  then firstn 2 available else available) = firstn 2 available).
  { destruct (Nat.leb_spec 2 (List.length available)); [reflexivity |].
    symmetry. apply firstn_all2. lia. }
  assert (Hopt : incl (multiselect U "Selecciona variables para graficar:" available
                         (firstn 2 available)) available)
    by apply Huser, firstn_incl.
  remember (multiselect U "Selecciona variables para graficar:" available
              (firstn 2 available)) as sel eqn:Hs.
  intros Hsel.
  assert (Hincl : incl sel (columns df)).
  { intros col Hcol. apply chartable_in_columns. rewrite <- Hav. now apply Hopt. }
  destruct (add_traces_spec df xs sel Hx Hincl 0%nat) as [ts [Hts [Hlen Hnth]]].
  exists ts. split; [| split; [exact Hlen | exact Hnth]].
  unfold chart. rewrite (getitem_in_columns _ _ _ Hx).
  rewrite (available_columns_filter df (columns df) (incl_refl _)), <- Hav.
  unfold lift at 1. rewrite bind_returned.
  destruct available as [| a l].
  - destruct sel as [| col sel']; [now destruct Hsel |].
    destruct (Hopt col (or_introl eq_refl)).
  - cbv zeta. rewrite Hdef, <- Hs.
    destruct sel as [| col sel']; [now destruct Hsel |].
    rewrite Hts. reflexivity.
Qed.

(** With seven columns picked, the seventh trace has the colour of the
    first. *)
Lemma chart_draws_selection_witness :
  selects_among_options user_all
  /\ getitem frame_wide "FechaHora"
     = Ok (Datetimes [Some (seconds 1704103200); Some (seconds 1704103210)])
  /\ multiselect user_all "Selecciona variables para graficar:"
       (filter (chartable frame_wide) (columns frame_wide))
       (firstn 2 (filter (chartable frame_wide) (columns frame_wide)))
     = ["A"; "B"; "C"; "D"; "E"; "F"; "G"]
  /\ exists ts,
       outcome (chart user_all frame_wide) = Ok tt
       /\ List.length ts = 7%nat
       /\ (exists ys, nth_error ts 0
                      = Some (mkScatter
                                (Datetimes [Some (seconds 1704103200); Some (seconds 1704103210)])
                                ys "A" "#1f77b4"))
       /\ (exists ys, nth_error ts 6
                      = Some (mkScatter
                                (Datetimes [Some (seconds 1704103200); Some (seconds 1704103210)])
                                ys "G" "#1f77b4")).
Proof.
  assert (Hu : selects_among_options user_all).
  { intros label options default _. apply incl_refl. }
  split; [exact Hu |]. split; [reflexivity |]. split; [reflexivity |].
  destruct (chart_draws_selection user_all frame_wide _ Hu eq_refl)
    as [ts [Hchart [Hlen Hnth]]].
  - vm_compute. discriminate.
  - exists ts. split; [now rewrite Hchart |]. split; [exact Hlen |]. split.
    + destruct (Hnth 0%nat "A" eq_refl) as [ys [_ H]]. now exists ys.
    + destruct (Hnth 6%nat "G" eq_refl) as [ys [_ H]]. now exists ys.
Defined.

(** X7.  When the user picks nothing, no chart is drawn and nothing
    raises: the chart section is the subheader and the selection box, or
    the subheader and a warning when no column can be charted, or
    nothing at all for a frame without 'FechaHora'. *)
Theorem chart_without_selection (U : User) (df : DataFrame) :
  (forall label options default, multiselect U label options default = []) ->
  chart U df
  = (if in_columns "FechaHora" df
     then match filter (chartable df) (columns df) with
          | [] => [(Main, st_subheader "📈 Evolución Temporal");
                   (Main, st_warning "No hay columnas numéricas para graficar")]
          | _ :: _ =>
              [(Main, st_subheader "📈 Evolución Temporal");
               (Main, st_multiselect "Selecciona variables para graficar:"
                        (filter (chartable df) (columns df))
                        (firstn 2 (filter (chartable df) (columns df))))]
          end
     else [], Ok tt)
  /\ existsb is_chart (rendered (chart U df)) = false.
Proof.
  intros Hnone.
  assert (Heq : chart U df
                = (if in_columns "FechaHora" df
                   then match filter (chartable df) (columns df) with
                        | [] => [(Main, st_subheader "📈 Evolución Temporal");
                                 (Main, st_warning "No hay columnas numéricas para graficar")]
                        | _ :: _ =>
                            [(Main, st_subheader "📈 Evolución Temporal");
                             (Main, st_multiselect "Selecciona variables para graficar:"
                                      (filter (chartable df) (columns df))
                                      (firstn 2 (filter (chartable df) (columns df))))]
                        end
                   else [], Ok tt)).
  { unfold chart. destruct (in_columns "FechaHora" df); [| reflexivity].
    rewrite (available_columns_filter df (columns df) (incl_refl _)).
    unfold lift at 1. rewrite bind_returned.
    remember (filter (chartable df) (columns df)) as available eqn:Hav.
    assert (Hdef : (if (2 <=? List.length available)%nat
                    then firstn 2 available else available) = firstn 2 available).
    { destruct (Nat.leb_spec 2 (List.length available)); [reflexivity |].
      symmetry. apply firstn_all2. lia. }
    destruct available as [| a l]; [reflexivity |].
    cbv zeta. rewrite Hdef, Hnone. reflexivity. }
  split; [exact Heq |]. rewrite Heq.
  destruct (in_columns "FechaHora" df); [| reflexivity].
  destruct (filter (chartable df) (columns df)); reflexivity.
Qed.

Lemma chart_without_selection_witness :
  (forall label options default, multiselect user_none label options default = [])
  /\ chart user_none frame_ejemplo
     = ([(Main, st_subheader "📈 Evolución Temporal");
         (Main, st_multiselect "Selecciona variables para graficar:"
                  ["Voltaje"; "Temperatura"; "Humedad"] ["Voltaje"; "Temperatura"])],
        Ok tt).
Proof.
  assert (H : forall label options default,
             multiselect user_none label options default = []) by reflexivity.
  split; [exact H |].
  rewrite (proj1 (chart_without_selection user_none frame_ejemplo H)).
  vm_compute. reflexivity.
Defined.

(* ================================================================== *)
(** ** The elements of the dashboard *)

Lemma without_weaker {A : Type} (f g : event -> bool) (m : ui A) :
  (forall ev, g ev = true -> f ev = true) -> without f m -> without g m.
Proof.
  unfold without. intros Hfg Hf.
  destruct (existsb g (rendered m)) eqn:E; [| reflexivity].
  apply existsb_exists in E. destruct E as [ev [Hin Hg]].
  rewrite <- Hf. symmetry. apply existsb_exists. exists ev. auto.
Qed.

(** The dashboard renders elements of the dashboard only. *)
Lemma dashboard_elements (P : Pandas) (U : User) (df : DataFrame) :
  without not_of_dashboard (dashboard P U df).
Proof.
  unfold dashboard.
  apply without_bind; [without_step | intros].
  apply without_bind.
  { unfold metrics, voltage_metric, temperature_metric, humidity_metric.
    repeat without_step.
    - destruct (in_columns "Voltaje" df); repeat without_step.
    - destruct (in_columns "Temperatura" df); repeat without_step.
    - destruct (in_columns "Humedad" df); repeat without_step. }
  intros. apply without_bind; [without_step | intros].
  apply without_bind; [destruct (negb (empty df)); repeat without_step | intros].
  apply without_bind.
  { unfold chart. destruct (in_columns "FechaHora" df); repeat without_step.
    match goal with |- without _ (match ?l with _ => _ end) => destruct l end;
      repeat without_step.
    match goal with |- without _ (match ?l with _ => _ end) => destruct l end;
      repeat without_step. }
  intros. unfold tables. repeat without_step.
Qed.

Lemma for_each_emit_outcome {A : Type} (l : list A) (c : container) (e : A -> element) :
  outcome (for_each l (fun a => emit c (e a))) = Ok tt.
Proof.
  induction l as [| a l IH]; [reflexivity |].
  cbn [for_each]. now rewrite outcome_emit_bind.
Qed.

Lemma footer_outcome_idle (U : User) (df : DataFrame) :
  (forall label, button U label = false) ->
  outcome (footer U df) = Ok tt
  /\ existsb is_cache_clear (rendered (footer U df)) = false.
Proof. intros H. unfold footer. rewrite H. split; reflexivity. Qed.

(* ================================================================== *)
(** ** Runs against the cache *)

Lemma script_from_load (P : Pandas) (R : Remote) (U : User) :
  script_from (load_data P R) P U = script P R U.
Proof. reflexivity. Qed.

Lemma run_cold (P : Pandas) (R : Remote) (U : User) (clock : Z) :
  run P R U clock None
  = (script P R U,
     if existsb is_cache_clear (rendered (script P R U))
     then None else Some (clock, load_data P R)).
Proof. reflexivity. Qed.

Lemma run_hit (P : Pandas) (R : Remote) (U : User) (clock stored : Z) (v : ui DataFrame) :
  clock < stored + ttl ->
  fst (run P R U clock (Some (stored, v))) = script_from v P U.
Proof.
  intros H. unfold run, cached_load_data.
  now rewrite (proj2 (Z.ltb_lt _ _) H).
Qed.

Lemma run_expired (P : Pandas) (R : Remote) (U : User) (clock stored : Z) (v : ui DataFrame) :
  stored + ttl <= clock ->
  fst (run P R U clock (Some (stored, v))) = script P R U.
Proof.
  intros H. unfold run, cached_load_data.
  now rewrite (proj2 (Z.ltb_ge _ _) H).
Qed.

Lemma load_data_rendered (P : Pandas) (R : Remote) :
  forallb (fun ev => match ev with (Main, st_error _) => true | _ => false end)
    (rendered (load_data P R)) = true.
Proof.
  destruct (load_data_try P R) as [df | e] eqn:E.
  - now rewrite (load_data_returns _ _ _ E).
  - now rewrite (load_data_catches _ _ _ E).
Qed.

(** What the page renders before the footer has no button and does not
    clear the cache. *)
Lemma presenter_elements (P : Pandas) (U : User) (df : DataFrame) (f : event -> bool) :
  (forall c e, f (c, e) = true -> e = st_cache_data_clear \/ exists l, e = st_button l) ->
  without f (presenter P U df).
Proof.
  intros Hf. unfold presenter. destruct (negb (empty df)).
  - apply (without_weaker not_of_dashboard f); [| apply dashboard_elements].
    intros [c e] H. destruct (Hf c e H) as [-> | [l ->]]; reflexivity.
  - unfold without. destruct (existsb f (rendered fallback)) eqn:E; [| reflexivity].
    apply existsb_exists in E. destruct E as [[c e] [Hin H]].
    destruct (Hf c e H) as [-> | [l ->]];
      rewrite fallback_renders in Hin; simpl in Hin;
      destruct Hin as [Hin | [Hin | []]]; discriminate.
Qed.

Lemma load_data_elements (P : Pandas) (R : Remote) (f : event -> bool) :
  (forall c e, f (c, e) = true -> e = st_cache_data_clear \/ exists l, e = st_button l) ->
  without f (load_data P R).
Proof.
  intros Hf. unfold without.
  destruct (existsb f (rendered (load_data P R))) eqn:E; [| reflexivity].
  apply existsb_exists in E. destruct E as [[c e] [Hin H]].
  pose proof (load_data_rendered P R) as Hall. rewrite forallb_forall in Hall.
  specialize (Hall (c, e) Hin). simpl in Hall.
  destruct (Hf c e H) as [-> | [l ->]]; destruct c; discriminate.
Qed.

Lemma is_cache_clear_kind (c : container) (e : element) :
  is_cache_clear (c, e) = true -> e = st_cache_data_clear \/ exists l, e = st_button l.
Proof. destruct e; simpl; intros H; try discriminate. now left. Qed.

Lemma is_button_kind (c : container) (e : element) :
  is_button (c, e) = true -> e = st_cache_data_clear \/ exists l, e = st_button l.
Proof. destruct e; simpl; intros H; try discriminate. right. eauto. Qed.

Lemma script_keeps_cache_when_idle (P : Pandas) (R : Remote) (U : User) :
  (forall label, button U label = false) ->
  existsb is_cache_clear (rendered (script P R U)) = false.
Proof.
  intros Hidle. change (without is_cache_clear (script P R U)). unfold script.
  apply without_bind; [without_step | intros].
  apply without_bind; [without_step | intros].
  apply without_bind; [apply load_data_elements, is_cache_clear_kind | intros df].
  apply without_bind; [apply presenter_elements, is_cache_clear_kind | intros].
  apply (footer_outcome_idle U df Hidle).
Qed.

(** X10.  After a run that filled the cache and in which the button was
    not pressed, a run less than 300 seconds later renders what the
    script renders for the backend of the first run, whatever the backend
    answers by then (a failure, too, stays on the page); from 300 seconds
    on, the backend is asked again. *)
Theorem cached_run_ignores_backend (P : Pandas) (R0 R1 : Remote) (U0 U1 : User)
        (t0 t1 : Z) :
  (forall label, button U0 label = false) ->
  (t1 < t0 + seconds 300 ->
     fst (run P R1 U1 t1 (snd (run P R0 U0 t0 None))) = script P R0 U1)
  /\ (t0 + seconds 300 <= t1 ->
        fst (run P R1 U1 t1 (snd (run P R0 U0 t0 None))) = script P R1 U1).
Proof.
  intros Hidle. rewrite run_cold. cbn [snd].
  rewrite (script_keeps_cache_when_idle P R0 U0 Hidle). split; intros Ht.
  - rewrite run_hit by exact Ht. apply script_from_load.
  - now apply run_expired.
Qed.

(** The failure of the first run is still rendered 299 seconds later,
    when the sheet can be reached again. *)
Lemma cached_run_ignores_backend_witness :
  (forall label, button user_idle label = false)
  /\ 0 + seconds 299 < 0 + seconds 300
  /\ rendered (fst (run pandas_iso (remote_serving records_ejemplo fetch_time) user_idle
                      (0 + seconds 299)
                      (snd (run pandas_iso (remote_unreachable fetch_time) user_idle 0 None))))
     = rendered (script pandas_iso (remote_unreachable fetch_time) user_idle).
Proof.
  split; [reflexivity |]. split; [reflexivity |].
  rewrite (proj1 (cached_run_ignores_backend pandas_iso
                    (remote_unreachable fetch_time)
                    (remote_serving records_ejemplo fetch_time)
                    user_idle user_idle 0 (0 + seconds 299) (fun _ => eq_refl))
             eq_refl).
  reflexivity.
Defined.

(** X12.  When a metric of the loaded frame cannot be shown, the run
    stops with its exception whatever the user does: the page has no
    refresh button and the cache keeps the frame, so the runs of the next
    300 seconds stop in the same way. *)
Theorem failing_metric_hides_refresh (P : Pandas) (R0 R1 : Remote) (U0 U1 : User)
        (t0 t1 : Z) (df : DataFrame) :
  load_data_try P R0 = Ok df ->
  empty df = false ->
  metrics_fail df = true ->
  t1 < t0 + seconds 300 ->
  exists e,
    outcome (script P R0 U0) = Raise e
    /\ existsb is_button (rendered (script P R0 U0)) = false
    /\ snd (run P R0 U0 t0 None) = Some (t0, load_data P R0)
    /\ outcome (fst (run P R1 U1 t1 (snd (run P R0 U0 t0 None)))) = Raise e.
Proof.
  intros Hload Hempty Hfail Ht.
  pose proof (load_data_returns _ _ _ Hload) as Hret.
  assert (Hm : exists e, outcome (metrics P df) = Raise e).
  { destruct (load_data_try_shape _ _ _ Hload) as [records [ts [_ [Hdf _]]]].
    destruct (outcome_unit (outcome (metrics P df))) as [H | H]; [| exact H].
    subst df. apply loaded_metrics_outcome in H; [congruence |].
    destruct records; [discriminate | simpl; lia]. }
  destruct Hm as [e He]. exists e.
  assert (Hraise : forall U, outcome (script P R0 U) = Raise e).
  { intros U. unfold script. rewrite !outcome_emit_bind, Hret, bind_returned.
    apply bind_raises. unfold presenter. rewrite Hempty. cbn [negb].
    unfold dashboard. rewrite outcome_emit_bind. now apply bind_raises. }
  assert (Hquiet : forall f : event -> bool,
             (forall c e', f (c, e') = true ->
                           e' = st_cache_data_clear \/ exists l, e' = st_button l) ->
             existsb f (rendered (script P R0 U0)) = false).
  { intros f Hf. unfold script. rewrite !rendered_emit_bind, Hret, bind_returned.
    rewrite rendered_bind.
    assert (Hp : exists e', outcome (presenter P U0 df) = Raise e').
    { exists e. unfold presenter. rewrite Hempty. cbn [negb].
      unfold dashboard. rewrite outcome_emit_bind. now apply bind_raises. }
    destruct Hp as [e' Hp]. rewrite Hp.
    cbn [existsb].
    destruct (f (Main, st_set_page_config _ _ _)) eqn:E1;
      [destruct (Hf _ _ E1) as [H | [l H]]; discriminate |].
    destruct (f (Main, st_title _)) eqn:E2;
      [destruct (Hf _ _ E2) as [H | [l H]]; discriminate |].
    apply (presenter_elements P U0 df f Hf). }
  split; [apply Hraise |]. split; [exact (Hquiet is_button is_button_kind) |].
  rewrite run_cold. cbn [snd]. rewrite (Hquiet is_cache_clear is_cache_clear_kind).
  split; [reflexivity |].
  rewrite run_hit by exact Ht. rewrite script_from_load. apply Hraise.
Qed.

Lemma failing_metric_hides_refresh_witness :
  exists df,
    load_data_try pandas_iso (remote_serving records_text fetch_time) = Ok df
    /\ empty df = false
    /\ metrics_fail df = true
    /\ 1 < 0 + seconds 300
    /\ exists e,
         outcome (script pandas_iso (remote_serving records_text fetch_time) user_refresh)
         = Raise e
         /\ existsb is_button
              (rendered (script pandas_iso (remote_serving records_text fetch_time)
                           user_refresh)) = false
         /\ outcome (fst (run pandas_iso (remote_serving records_ejemplo fetch_time)
                            user_refresh 1
                            (snd (run pandas_iso (remote_serving records_text fetch_time)
                                    user_refresh 0 None))))
            = Raise e.
Proof.
  eexists. split; [vm_compute; reflexivity |].
  split; [reflexivity |]. split; [reflexivity |]. split; [reflexivity |].
  match goal with
  | |- exists e, outcome (script ?P ?R0 ?U) = _ /\ _ /\ outcome (fst (run _ ?R1 _ _ _)) = _ =>
      destruct (failing_metric_hides_refresh P R0 R1 U U 0 1 _
                  ltac:(vm_compute; reflexivity) eq_refl eq_refl eq_refl)
        as [e [H1 [H2 [_ H3]]]]
  end.
  exists e. split; [exact H1 |]. split; assumption.
Defined.

(* ================================================================== *)
(** ** The order of the columns, and the sidebar *)

(** X13.  When [load_data] succeeds, the columns of the frame are the
    keys of the fetched records in the order of the sheet; 'FechaHora'
    stays where the sheet has it, and is added as the last column when
    the sheet has none. *)
Theorem load_data_column_order (P : Pandas) (R : Remote)
        (records : list record) (df : DataFrame) :
  fetch R = Ok records ->
  load_data_try P R = Ok df ->
  columns df
  = if existsb (String.eqb "FechaHora") (keys_of records)
    then keys_of records
    else (keys_of records ++ ["FechaHora"])%list.
Proof.
  intros Hfetch Hload.
  destruct (load_data_try_shape _ _ _ Hload) as [records' [ts [Hfetch' [-> _]]]].
  assert (records' = records) by congruence. subst records'.
  unfold columns, with_FechaHora. cbn [data]. rewrite upsert_names.
  fold (columns (DataFrame_of_records records)).
  now rewrite columns_of_records.
Qed.

Lemma load_data_column_order_witness :
  fetch (remote_serving records_timestamp fetch_time) = Ok records_timestamp
  /\ exists df,
       load_data_try pandas_iso (remote_serving records_timestamp fetch_time) = Ok df
       /\ columns df = ["Timestamp"; "Voltaje"; "FechaHora"].
Proof.
  split; [reflexivity |].
  eexists. split; [vm_compute; reflexivity |].
  rewrite (load_data_column_order pandas_iso
             (remote_serving records_timestamp fetch_time) records_timestamp _ eq_refl
             ltac:(vm_compute; reflexivity)).
  reflexivity.
Defined.

Lemma for_each_emit_rendered {A : Type} (l : list A) (c : container) (e : A -> element) :
  rendered (for_each l (fun a => emit c (e a))) = map (fun a => (c, e a)) l.
Proof.
  induction l as [| a l IH]; [reflexivity |].
  cbn [for_each map]. now rewrite rendered_emit_bind, IH.
Qed.

Lemma filter_without {A : Type} (f : event -> bool) (m : ui A) :
  without f m -> filter f (rendered m) = [].
Proof.
  unfold without. induction (rendered m) as [| ev evs IH]; [reflexivity |].
  simpl. destruct (f ev); [discriminate |]. exact IH.
Qed.

Lemma metrics_not_in_sidebar (P : Pandas) (df : DataFrame) :
  without in_sidebar (metrics P df).
Proof.
  unfold metrics, voltage_metric, temperature_metric, humidity_metric.
  repeat without_step.
  - destruct (in_columns "Voltaje" df); repeat without_step.
  - destruct (in_columns "Temperatura" df); repeat without_step.
  - destruct (in_columns "Humedad" df); repeat without_step.
Qed.

Lemma chart_not_in_sidebar (U : User) (df : DataFrame) :
  without in_sidebar (chart U df).
Proof.
  unfold chart. destruct (in_columns "FechaHora" df); repeat without_step.
  match goal with |- without _ (match ?l with _ => _ end) => destruct l end;
    repeat without_step.
  match goal with |- without _ (match ?l with _ => _ end) => destruct l end;
    repeat without_step.
Qed.

Lemma tables_not_in_sidebar (df : DataFrame) : without in_sidebar (tables df).
Proof. unfold tables. repeat without_step. Qed.

(** X14.  Once the metrics are shown, the dashboard of a frame that is
    not empty writes to the sidebar a heading and then one line per
    column of the frame, in column order, and nothing else. *)
Theorem sidebar_lists_columns (P : Pandas) (U : User) (df : DataFrame) :
  empty df = false ->
  outcome (metrics P df) = Ok tt ->
  filter in_sidebar (rendered (dashboard P U df))
  = (Sidebar, st_markdown "### 🔍 Columnas disponibles:")
    :: map (fun col => (Sidebar, st_write ("- `" ++ col ++ "`"))) (columns df).
Proof.
  intros Hempty Hm. unfold dashboard. rewrite Hempty. cbn [negb].
  rewrite rendered_emit_bind. cbn [filter in_sidebar].
  rewrite rendered_bind, Hm, filter_app.
  rewrite (filter_without _ _ (metrics_not_in_sidebar P df)). cbn [app].
  rewrite rendered_emit_bind. cbn [filter in_sidebar]. f_equal.
  rewrite rendered_bind, for_each_emit_outcome, filter_app, for_each_emit_rendered.
  assert (Hlines : forall cols,
             filter in_sidebar
               (map (fun col => (Sidebar, st_write ("- `" ++ col ++ "`"))) cols)
             = map (fun col => (Sidebar, st_write ("- `" ++ col ++ "`"))) cols).
  { induction cols as [| col cols IH]; [reflexivity |].
    cbn [map filter in_sidebar]. now f_equal. }
  rewrite Hlines. rewrite <- (app_nil_r (map _ (columns df))) at 2. f_equal.
  rewrite rendered_bind.
  destruct (outcome (chart U df)).
  - rewrite filter_app, (filter_without _ _ (chart_not_in_sidebar U df)),
      (filter_without _ _ (tables_not_in_sidebar df)). reflexivity.
  - apply (filter_without _ _ (chart_not_in_sidebar U df)).
Qed.

Lemma sidebar_lists_columns_witness :
  empty frame_ejemplo = false
  /\ outcome (metrics pandas_iso frame_ejemplo) = Ok tt
  /\ filter in_sidebar (rendered (dashboard pandas_iso user_idle frame_ejemplo))
     = [(Sidebar, st_markdown "### 🔍 Columnas disponibles:");
        (Sidebar, st_write "- `FechaHora`");
        (Sidebar, st_write "- `Voltaje`");
        (Sidebar, st_write "- `Temperatura`");
        (Sidebar, st_write "- `Humedad`")].
Proof.
  split; [reflexivity |]. split; [vm_compute; reflexivity |].
  rewrite (sidebar_lists_columns pandas_iso user_idle frame_ejemplo eq_refl
             ltac:(vm_compute; reflexivity)).
  reflexivity.
Defined.
